(** * safe-relay-service: the creation service and the relay contract

    A shallow embedding of
    [safe_relay_service/relay/services/safe_creation_service.py] together
    with the collaborators it talks to (token table, gas station, Safe
    transaction builder, persistence layer, Ethereum node), followed by the
    properties the specification states about them.

    Python exceptions become the [Raise] branch of [result]; the Django
    tables and the node become an explicit [World] threaded through a small
    state-and-exception monad, in which a raise keeps every effect that was
    performed before it (the service opens no database transaction). *)

From Stdlib Require Import String Ascii List ZArith QArith Bool Lia Sorted Permutation.
Import ListNotations.

Open Scope Z_scope.

(** ** Values shared by every module *)

Definition bytes := list Byte.byte.

(** [gnosis.eth.constants.NULL_ADDRESS] *)
Definition NULL_ADDRESS : string :=
  "0x0000000000000000000000000000000000000000"%string.

(** Python's [x or NULL_ADDRESS] for [x : Union[str, None]]: [None] and the
    empty string are falsy. *)
Definition or_null (x : option string) : string :=
  match x with
  | Some (String c rest) => String c rest
  | Some EmptyString => NULL_ADDRESS
  | None => NULL_ADDRESS
  end.

(** Python's [float]; the service only passes these values along, and the
    single literal it builds is [1.0]. *)
Definition float := Q.
Definition float_1_0 : float := 1%Q.

(** ** Exceptions and results *)

Inductive exn : Type :=
| InvalidPaymentToken (address : string)
| DoesNotExist (model : string)
| MultipleObjectsReturned (model : string)
| DatabaseError (model : string)
| CollaboratorError (detail : string).

Inductive result (A : Type) : Type :=
| Ok (a : A)
| Raise (e : exn).
Arguments Ok {A} a.
Arguments Raise {A} e.

(** ** Django models ([..models], [safe_relay_service.tokens.models])

    The model declarations are not among the sources; each record lists the
    columns the service reads or writes, under the names it uses. *)

Module Token.
Record t : Type := mk {
  address : string;
  gas : bool;
  get_eth_value : float
}.
End Token.

Module SafeContract.
Record t : Type := mk {
  address : string;
  master_copy : string
}.
End SafeContract.

Module SafeCreation.
Record t : Type := mk {
  deployer : string;
  safe : string;
  master_copy : string;
  funder : string;
  owners : list string;
  threshold : Z;
  payment : Z;
  tx_hash : string;
  gas : Z;
  gas_price : Z;
  payment_token : option string;
  value : Z;
  v : Z;
  r : Z;
  s : Z;
  data : bytes;
  signed_tx : bytes
}.
End SafeCreation.

Module SafeCreation2.
Record t : Type := mk {
  safe : string;
  master_copy : string;
  proxy_factory : string;
  salt_nonce : Z;
  owners : list string;
  threshold : Z;
  payment_token : option string;
  payment : Z;
  payment_receiver : string;
  setup_data : bytes;
  gas_estimated : Z;
  gas_price_estimated : Z;
  tx_hash : option bytes
}.

(** [safe_creation2.tx_hash = tx_hash] *)
Definition set_tx_hash (h : bytes) (row : t) : t :=
  mk (safe row) (master_copy row) (proxy_factory row) (salt_nonce row)
     (owners row) (threshold row) (payment_token row) (payment row)
     (payment_receiver row) (setup_data row) (gas_estimated row)
     (gas_price_estimated row) (Some h).
End SafeCreation2.

(** ** Objects returned by the collaborators ([gnosis.safe], gas station) *)

Module GasPrices.
Record t : Type := mk {
  standard : Z;
  fast : Z
}.
End GasPrices.

Module Transaction.
Record t : Type := mk {
  value : Z;
  data : bytes
}.
End Transaction.

(** The [tx_hash] of a creation transaction: an object of the builder's
    library, of which the service calls [hex()] and nothing else. *)
Module TxHash.
Record t : Type := mk {
  hex : string
}.
End TxHash.

Module SafeCreationTx.
Record t : Type := mk {
  safe_address : string;
  master_copy : string;
  deployer_address : string;
  funder : string;
  payment : Z;
  tx_hash : TxHash.t;
  gas : Z;
  gas_price : Z;
  payment_token : string;
  tx_pyethereum : Transaction.t;
  v : Z;
  r : Z;
  s : Z;
  tx_raw : bytes
}.
End SafeCreationTx.

Module SafeCreate2Tx.
Record t : Type := mk {
  safe_address : string;
  master_copy_address : string;
  proxy_factory_address : string;
  payment_token : string;
  payment : Z;
  payment_receiver : string;
  safe_setup_data : bytes;
  gas : Z;
  gas_price : Z
}.
End SafeCreate2Tx.

(** [SafeInfo(NamedTuple)] *)
Module SafeInfo.
Record t : Type := mk {
  address : string;
  nonce : Z;
  threshold : Z;
  owners : list string;
  master_copy : string;
  version : string
}.
End SafeInfo.

(** ** The persisted tables *)

Record Db : Type := mkDb {
  tokens : list Token.t;
  safe_contracts : list SafeContract.t;
  safe_creations : list SafeCreation.t;
  safe_creations2 : list SafeCreation2.t
}.

(** The statements the service sends to the persistence layer:
    [Model.objects.create(...)] and [instance.save()]. *)
Inductive write : Type :=
| InsertSafeContract (row : SafeContract.t)
| InsertSafeCreation (row : SafeCreation.t)
| InsertSafeCreation2 (row : SafeCreation2.t)
| SaveSafeCreation2 (row : SafeCreation2.t).

(** [save()] on a loaded row updates the row with the same key. *)
Definition replace_creation2 (row : SafeCreation2.t) (rows : list SafeCreation2.t)
  : list SafeCreation2.t :=
  map (fun old => if String.eqb (SafeCreation2.safe old) (SafeCreation2.safe row)
                  then row else old) rows.

Definition apply_write (w : write) (d : Db) : Db :=
  match w with
  | InsertSafeContract row =>
      mkDb (tokens d) (safe_contracts d ++ [row]) (safe_creations d) (safe_creations2 d)
  | InsertSafeCreation row =>
      mkDb (tokens d) (safe_contracts d) (safe_creations d ++ [row]) (safe_creations2 d)
  | InsertSafeCreation2 row =>
      mkDb (tokens d) (safe_contracts d) (safe_creations d) (safe_creations2 d ++ [row])
  | SaveSafeCreation2 row =>
      mkDb (tokens d) (safe_contracts d) (safe_creations d)
           (replace_creation2 row (safe_creations2 d))
  end.

(** [Model.objects.get(...)] over the rows of a table. *)
Definition objects_get {A : Type} (model : string) (matches : A -> bool) (rows : list A)
  : result A :=
  match filter matches rows with
  | [] => Raise (DoesNotExist model)
  | [row] => Ok row
  | _ :: _ :: _ => Raise (MultipleObjectsReturned model)
  end.

(** ** Observable effects *)

Inductive attribute : Type := Nonce | Threshold | Owners | MasterCopy | Version.

Inductive event : Type :=
| TokenLookup (address : string)
| GasStationQuery
| RecordLookup (safe : string)
| Written (w : write)
| DeployCall (salt_nonce : Z) (setup_data : bytes) (gas gas_price : Z)
| ChainRead (what : attribute) (address : string).

(** ** The collaborators injected into the service *)

Record GasStation : Type := mkGasStation {
  get_gas_prices : result GasPrices.t
}.

Record SafeService (Node : Type) : Type := mkSafeService {
  build_safe_creation_tx :
    Node -> Z -> list string -> Z -> Z -> string -> float -> Z -> result SafeCreationTx.t;
  build_safe_create2_tx :
    Node -> Z -> list string -> Z -> Z -> string -> float -> Z -> result SafeCreate2Tx.t;
  deploy_proxy_contract_with_nonce :
    Node -> Z -> bytes -> Z -> Z -> string -> result (bytes * string) * Node;
  retrieve_nonce : Node -> string -> result Z;
  retrieve_threshold : Node -> string -> result Z;
  retrieve_owners : Node -> string -> result (list string);
  retrieve_master_copy_address : Node -> string -> result string;
  retrieve_version : Node -> string -> result string
}.
Arguments build_safe_creation_tx {Node} _.
Arguments build_safe_create2_tx {Node} _.
Arguments deploy_proxy_contract_with_nonce {Node} _.
Arguments retrieve_nonce {Node} _.
Arguments retrieve_threshold {Node} _.
Arguments retrieve_owners {Node} _.
Arguments retrieve_master_copy_address {Node} _.
Arguments retrieve_version {Node} _.

(** [class SafeCreationService], the fields set by [__init__]. *)
Record SafeCreationService (Node : Type) : Type := mkSafeCreationService {
  safe_service : SafeService Node;
  gas_station : GasStation;
  safe_funder_private_key : string;
  safe_fixed_creation_cost : Z
}.
Arguments safe_service {Node} _.
Arguments gas_station {Node} _.
Arguments safe_funder_private_key {Node} _.
Arguments safe_fixed_creation_cost {Node} _.

(** ** The world and the monad of the service *)

Record World (Node : Type) : Type := mkWorld {
  db : Db;
  node : Node;
  trace : list event
}.
Arguments mkWorld {Node} _ _ _.
Arguments db {Node} _.
Arguments node {Node} _.
Arguments trace {Node} _.

Definition M (Node A : Type) : Type := World Node -> result A * World Node.

Definition ret {Node A : Type} (a : A) : M Node A := fun w => (Ok a, w).

Definition raise {Node A : Type} (e : exn) : M Node A := fun w => (Raise e, w).

Definition bind {Node A B : Type} (m : M Node A) (k : A -> M Node B) : M Node B :=
  fun w =>
    match m w with
    | (Ok a, w') => k a w'
    | (Raise e, w') => (Raise e, w')
    end.

Declare Scope service_scope.
Delimit Scope service_scope with service.
Notation "x <- m ;; k" := (bind m (fun x => k))
  (at level 61, m at next level, right associativity) : service_scope.
Notation "m ;;; k" := (bind m (fun _ => k))
  (at level 61, right associativity) : service_scope.

Definition lift {Node A : Type} (r : result A) : M Node A := fun w => (r, w).

Definition emit {Node : Type} (e : event) : M Node unit :=
  fun w => (Ok tt, mkWorld (db w) (node w) (trace w ++ [e])).

(** [try: body except <caught>: handler] *)
Definition try_except {Node A : Type} (body : M Node A) (caught : exn -> bool)
  (handler : exn -> M Node A) : M Node A :=
  fun w =>
    match body w with
    | (Ok a, w') => (Ok a, w')
    | (Raise e, w') => if caught e then handler e w' else (Raise e, w')
    end.

Definition is_Token_DoesNotExist (e : exn) : bool :=
  match e with
  | DoesNotExist model => String.eqb model "Token"
  | _ => false
  end.

(** ** [class SafeCreationService] *)

Section Service.
Local Open Scope service_scope.

Variable Node : Type.

(** Whether the persistence layer accepts a write in the current state of the
    tables (constraints of the schema, availability of the database).  A
    rejected write raises and changes nothing. *)
Variable accepts : Db -> write -> bool.

Variable self : SafeCreationService Node.

Definition model_of (w : write) : string :=
  match w with
  | InsertSafeContract _ => "SafeContract"
  | InsertSafeCreation _ => "SafeCreation"
  | InsertSafeCreation2 _ => "SafeCreation2"
  | SaveSafeCreation2 _ => "SafeCreation2"
  end%string.

Definition perform (w : write) : M Node unit :=
  fun world =>
    if accepts (db world) w
    then (Ok tt, mkWorld (apply_write w (db world)) (node world)
                         (trace world ++ [Written w]))
    else (Raise (DatabaseError (model_of w)), world).

(** [Token.objects.get(address=address, gas=True)] *)
Definition Token_objects_get (address : string) : M Node Token.t :=
  emit (TokenLookup address) ;;;
  fun world =>
    (objects_get "Token"
       (fun row => String.eqb (Token.address row) address && Bool.eqb (Token.gas row) true)
       (tokens (db world)),
     world).

(** [SafeContract.objects.create(address=..., master_copy=...)] *)
Definition SafeContract_objects_create (address master_copy : string)
  : M Node SafeContract.t :=
  let row := SafeContract.mk address master_copy in
  perform (InsertSafeContract row) ;;; ret row.

(** [SafeCreation.objects.create(...)] *)
Definition SafeCreation_objects_create (row : SafeCreation.t) : M Node SafeCreation.t :=
  perform (InsertSafeCreation row) ;;; ret row.

(** [SafeCreation2.objects.create(...)] *)
Definition SafeCreation2_objects_create (row : SafeCreation2.t) : M Node SafeCreation2.t :=
  perform (InsertSafeCreation2 row) ;;; ret row.

(** [SafeCreation2.objects.get(safe=safe_address)] *)
Definition SafeCreation2_objects_get (safe_address : string) : M Node SafeCreation2.t :=
  emit (RecordLookup safe_address) ;;;
  fun world =>
    (objects_get "SafeCreation2"
       (fun row => String.eqb (SafeCreation2.safe row) safe_address)
       (safe_creations2 (db world)),
     world).

(** [self.gas_station.get_gas_prices()] *)
Definition gas_station_get_gas_prices : M Node GasPrices.t :=
  emit GasStationQuery ;;; lift (get_gas_prices (gas_station self)).

Definition _get_token_eth_value_or_raise (address : option string) : M Node float :=
  let address := or_null address in
  if String.eqb address NULL_ADDRESS then ret float_1_0
  else
    try_except
      (token <- Token_objects_get address ;;
       ret (Token.get_eth_value token))
      is_Token_DoesNotExist
      (fun _ => raise (InvalidPaymentToken address)).

(** [None if tx.payment_token == NULL_ADDRESS else tx.payment_token] *)
Definition stored_payment_token (payment_token : string) : option string :=
  if String.eqb payment_token NULL_ADDRESS then None else Some payment_token.

Definition create_safe_tx (s : Z) (owners : list string) (threshold : Z)
  (payment_token : option string) : M Node SafeCreation.t :=
  let payment_token := or_null payment_token in
  payment_token_eth_value <- _get_token_eth_value_or_raise (Some payment_token) ;;
  gas_prices <- gas_station_get_gas_prices ;;
  let fast_gas_price := GasPrices.fast gas_prices in
  safe_creation_tx <-
    (fun world =>
       (build_safe_creation_tx (safe_service self) (node world) s owners threshold
          fast_gas_price payment_token payment_token_eth_value
          (safe_fixed_creation_cost self),
        world)) ;;
  safe_contract <-
    SafeContract_objects_create (SafeCreationTx.safe_address safe_creation_tx)
                                (SafeCreationTx.master_copy safe_creation_tx) ;;
  SafeCreation_objects_create
    (SafeCreation.mk
       (SafeCreationTx.deployer_address safe_creation_tx)
       (SafeContract.address safe_contract)
       (SafeCreationTx.master_copy safe_creation_tx)
       (SafeCreationTx.funder safe_creation_tx)
       owners
       threshold
       (SafeCreationTx.payment safe_creation_tx)
       (TxHash.hex (SafeCreationTx.tx_hash safe_creation_tx))
       (SafeCreationTx.gas safe_creation_tx)
       (SafeCreationTx.gas_price safe_creation_tx)
       (stored_payment_token (SafeCreationTx.payment_token safe_creation_tx))
       (Transaction.value (SafeCreationTx.tx_pyethereum safe_creation_tx))
       (SafeCreationTx.v safe_creation_tx)
       (SafeCreationTx.r safe_creation_tx)
       (SafeCreationTx.s safe_creation_tx)
       (Transaction.data (SafeCreationTx.tx_pyethereum safe_creation_tx))
       (SafeCreationTx.tx_raw safe_creation_tx)).

Definition create2_safe_tx (salt_nonce : Z) (owners : list string) (threshold : Z)
  (payment_token : option string) : M Node SafeCreation2.t :=
  let payment_token := or_null payment_token in
  payment_token_eth_value <- _get_token_eth_value_or_raise (Some payment_token) ;;
  gas_prices <- gas_station_get_gas_prices ;;
  let fast_gas_price := GasPrices.fast gas_prices in
  safe_creation_tx <-
    (fun world =>
       (build_safe_create2_tx (safe_service self) (node world) salt_nonce owners threshold
          fast_gas_price payment_token payment_token_eth_value
          (safe_fixed_creation_cost self),
        world)) ;;
  safe_contract <-
    SafeContract_objects_create (SafeCreate2Tx.safe_address safe_creation_tx)
                                (SafeCreate2Tx.master_copy_address safe_creation_tx) ;;
  SafeCreation2_objects_create
    (SafeCreation2.mk
       (SafeContract.address safe_contract)
       (SafeCreate2Tx.master_copy_address safe_creation_tx)
       (SafeCreate2Tx.proxy_factory_address safe_creation_tx)
       salt_nonce
       owners
       threshold
       (stored_payment_token (SafeCreate2Tx.payment_token safe_creation_tx))
       (SafeCreate2Tx.payment safe_creation_tx)
       (SafeCreate2Tx.payment_receiver safe_creation_tx)
       (SafeCreate2Tx.safe_setup_data safe_creation_tx)
       (SafeCreate2Tx.gas safe_creation_tx)
       (SafeCreate2Tx.gas_price safe_creation_tx)
       None).

(** [self.safe_service.deploy_proxy_contract_with_nonce(...)]: the call is
    recorded when it is made, whatever the node answers. *)
Definition safe_service_deploy (salt_nonce : Z) (setup_data : bytes) (gas gas_price : Z)
  : M Node (bytes * string) :=
  emit (DeployCall salt_nonce setup_data gas gas_price) ;;;
  fun world =>
    let '(answer, node') :=
      deploy_proxy_contract_with_nonce (safe_service self) (node world) salt_nonce
        setup_data gas gas_price (safe_funder_private_key self) in
    (answer, mkWorld (db world) node' (trace world)).

Definition deploy_create2_safe_tx (safe_address : string) : M Node bytes :=
  safe_creation2 <- SafeCreation2_objects_get safe_address ;;
  let setup_data := SafeCreation2.setup_data safe_creation2 in
  deployed <-
    safe_service_deploy (SafeCreation2.salt_nonce safe_creation2) setup_data
      (SafeCreation2.gas_estimated safe_creation2)
      (SafeCreation2.gas_price_estimated safe_creation2) ;;
  let tx_hash := fst deployed in
  let safe_creation2 := SafeCreation2.set_tx_hash tx_hash safe_creation2 in
  perform (SaveSafeCreation2 safe_creation2) ;;;
  ret tx_hash.

(** One on-chain read through the Safe service. *)
Definition chain_read {A : Type} (what : attribute)
  (read : SafeService Node -> Node -> string -> result A) (address : string) : M Node A :=
  emit (ChainRead what address) ;;;
  fun world => (read (safe_service self) (node world) address, world).

Definition retrieve_safe_info (address : string) : M Node SafeInfo.t :=
  nonce <- chain_read Nonce retrieve_nonce address ;;
  threshold <- chain_read Threshold retrieve_threshold address ;;
  owners <- chain_read Owners retrieve_owners address ;;
  master_copy <- chain_read MasterCopy retrieve_master_copy_address address ;;
  version <- chain_read Version retrieve_version address ;;
  ret (SafeInfo.mk address nonce threshold owners master_copy version).

End Service.

(** ** Vocabulary of the statements *)

(** A step leaves the tables and the node as they were. *)
Definition read_only {Node A : Type} (m : M Node A) : Prop :=
  forall w r w', m w = (r, w') -> db w' = db w /\ node w' = node w.

(** The rows of the token table that [Token.objects.get(address=a, gas=True)]
    selects. *)
Definition gas_tokens_at (a : string) (d : Db) : list Token.t :=
  filter (fun row => String.eqb (Token.address row) a && Bool.eqb (Token.gas row) true)
         (tokens d).

(** The world after one more event. *)
Definition logged {Node : Type} (e : event) (w : World Node) : World Node :=
  mkWorld (db w) (node w) (trace w ++ [e]).

(** No creation record of the tables holds the zero address as its payment
    token. *)
Definition no_null_payment_token (d : Db) : Prop :=
  Forall (fun row => SafeCreation.payment_token row <> Some NULL_ADDRESS)
         (safe_creations d) /\
  Forall (fun row => SafeCreation2.payment_token row <> Some NULL_ADDRESS)
         (safe_creations2 d).

(** How many times a trace hands a deployment to the node. *)
Definition deploy_calls (t : list event) : nat :=
  length (filter (fun e => match e with DeployCall _ _ _ _ => true | _ => false end) t).

(** How many times a trace saves the salted record of [safe]. *)
Definition tx_hash_writes (safe : string) (t : list event) : nat :=
  length (filter (fun e => match e with
                           | Written (SaveSafeCreation2 row) =>
                               String.eqb (SafeCreation2.safe row) safe
                           | _ => false
                           end) t).

(** The five reads of [retrieve_safe_info], in the order it makes them. *)
Definition attributes : list attribute := [Nonce; Threshold; Owners; MasterCopy; Version].

Definition reads_of (address : string) : list event :=
  map (fun what => ChainRead what address) attributes.

Definition failure_of {A : Type} (r : result A) : option exn :=
  match r with
  | Ok _ => None
  | Raise e => Some e
  end.

(** The exception the node answers a read with, if it does. *)
Definition read_failure {Node : Type} (service : SafeService Node) (n : Node)
  (address : string) (what : attribute) : option exn :=
  match what with
  | Nonce => failure_of (retrieve_nonce service n address)
  | Threshold => failure_of (retrieve_threshold service n address)
  | Owners => failure_of (retrieve_owners service n address)
  | MasterCopy => failure_of (retrieve_master_copy_address service n address)
  | Version => failure_of (retrieve_version service n address)
  end.

(** ** Packing signatures *)

Module Signatures.

Definition byte_of_Z (z : Z) : Byte.byte :=
  match Byte.of_N (Z.to_N (z mod 256)) with
  | Some b => b
  | None => Byte.x00
  end.

Definition Z_of_byte (b : Byte.byte) : Z := Z.of_N (Byte.to_N b).

(** The [width] low base-256 digits of [n], most significant first. *)
Fixpoint digits_be (width : nat) (n : Z) : bytes :=
  match width with
  | O => []
  | S width' => digits_be width' (n / 256) ++ [byte_of_Z n]
  end.

(** The number a big-endian byte string denotes. *)
Definition from_bytes_be (bs : bytes) : Z :=
  fold_left (fun acc b => acc * 256 + Z_of_byte b) bs 0.

(** A fixed-width big-endian field; a number that does not fit the width has
    no such encoding. *)
Definition to_bytes_be (width : nat) (n : Z) : option bytes :=
  if (0 <=? n) && (n <? 256 ^ Z.of_nat width)
  then Some (digits_be width n)
  else None.

(** Modelled from the spec: the packing of one signature, which belongs to the
    Safe service of [gnosis.safe] and is missing from the sources; section 4.1
    gives it as fixed-width r(32) then s(32) then v(1), 65 bytes per signer. *)
Definition signature_to_bytes (vrs : Z * Z * Z) : option bytes :=
  let '(v, r, s) := vrs in
  match to_bytes_be 32 r, to_bytes_be 32 s, to_bytes_be 1 v with
  | Some rb, Some sb, Some vb => Some (rb ++ sb ++ vb)
  | _, _, _ => None
  end.

(** Modelled from the spec: [signatures_to_bytes], missing from the sources
    for the same reason; section 4.1 gives it as the concatenation of the
    packed signatures in the order given by the caller. *)
Fixpoint signatures_to_bytes (signatures : list (Z * Z * Z)) : option bytes :=
  match signatures with
  | [] => Some []
  | vrs :: rest =>
      match signature_to_bytes vrs, signatures_to_bytes rest with
      | Some packed, Some tail => Some (packed ++ tail)
      | _, _ => None
      end
  end.

(** A (v, r, s) triple whose components fit their fields. *)
Definition well_formed (vrs : Z * Z * Z) : Prop :=
  let '(v, r, s) := vrs in
  0 <= v < 256 /\ 0 <= r < 2 ^ 256 /\ 0 <= s < 2 ^ 256.

(** The bytes of [packed] from offset [start], [len] of them. *)
Definition slice (start len : nat) (packed : bytes) : bytes :=
  firstn len (skipn start packed).

End Signatures.

(** ** The relay service *)

Module TransactionService.

Inductive error : Type :=
| InvalidSignatures
| InvalidRefundReceiver
| RefundMustBeEnabled
| GasPriceTooLow
| NotEnoughFundsForMultisigTx.

(** The arguments of [send_multisig_tx], as the test passes them. *)
Record Request : Type := mkRequest {
  safe_address : string;
  to : string;
  value : Z;
  data : bytes;
  operation : Z;
  safe_tx_gas : Z;
  data_gas : Z;
  gas_price : Z;
  gas_token : string;
  refund_receiver : string;
  signatures : bytes;
  tx_sender_private_key : string
}.

(** Modelled from the spec: the on-chain state the relay reads and changes
    (section 6: [getNonce], [getOwners], [getBalance], [submitTransaction]);
    the node is a black box of the repository.  The chain keeps the wallet
    transactions it executed, in order. *)
Record Chain : Type := mkChain {
  balance : string -> Z;
  owners : string -> list string;
  executed : list Request
}.

(** Modelled from the spec: the on-chain nonce of a wallet, the number of
    transactions the wallet has executed; the test reads 0 on the new wallet
    (l.67) and 1 after its first transaction (l.217). *)
Definition nonce (c : Chain) (address : string) : Z :=
  Z.of_nat (length (filter (fun tx => String.eqb (safe_address tx) address)
                           (executed c))).

Definition update (f : string -> Z) (key : string) (v : Z) : string -> Z :=
  fun a => if String.eqb a key then v else f a.

(** A plain transfer of native currency to [address] (test l.132-136). *)
Definition fund (c : Chain) (address : string) (amount : Z) : Chain :=
  mkChain (update (balance c) address (balance c address + amount))
          (owners c) (executed c).

Inductive outcome : Type :=
| Sent (tx_hash : bytes) (tx : Request)
| Failed (e : error).

(** The policy checks of section 4.3 other than the check of a zero gas
    price, as the section lists them. *)
Inductive policy_check : Type :=
| RefundReceiverCheck
| GasPriceFloorCheck
| FundsCheck.

Definition policy_checks : list policy_check :=
  [RefundReceiverCheck; GasPriceFloorCheck; FundsCheck].

Section Relay.

(** [get_hash_for_safe_tx] and [check_hash] of the Safe service. *)
Variable get_hash_for_safe_tx :
  string -> string -> Z -> bytes -> Z -> Z -> Z -> Z -> string -> string -> Z -> bytes.
Variable check_hash : bytes -> bytes -> list string -> bool.

(** The receivers the relay accepts besides the zero address. *)
Variable allowed_refund_receiver : string -> bool.

(** The gas station's current quote. *)
Variable gas_prices : GasPrices.t.

(** What the node answers for a submitted transaction: its hash, and the
    refund the wallet pays when the transaction is executed. *)
Variable hash_of_sent : Request -> Z -> bytes.
Variable refund_paid : Request -> Z.

(** The order in which the relay makes the three policy checks, which
    neither the spec nor the test fixes. *)
Variable order : list policy_check.

(** Modelled from the spec: what the wallet has to hold (section 4.3). *)
Definition required_funds (req : Request) : Z :=
  (data_gas req + safe_tx_gas req) * gas_price req + value req.

(** Modelled from the spec: the signatures of [req] verify against the
    wallet's owners in [c], for the hash over the fields of [req] and the
    wallet's current nonce (section 4.3, steps 1 and 2). *)
Definition signatures_valid (c : Chain) (req : Request) : bool :=
  check_hash
    (get_hash_for_safe_tx (safe_address req) (to req) (value req) (data req)
       (operation req) (safe_tx_gas req) (data_gas req) (gas_price req)
       (gas_token req) (refund_receiver req) (nonce c (safe_address req)))
    (signatures req) (owners c (safe_address req)).

(** Modelled from the spec: the refund receiver is the zero address or a
    receiver the relay accepts (section 4.3). *)
Definition refund_receiver_valid (req : Request) : bool :=
  String.eqb (refund_receiver req) NULL_ADDRESS
  || allowed_refund_receiver (refund_receiver req).

(** Modelled from the spec: the three policy checks of section 4.3 and the
    error of each, when the request does not pass it. *)
Definition violation (c : Chain) (req : Request) (check : policy_check)
  : option error :=
  match check with
  | RefundReceiverCheck =>
      if refund_receiver_valid req then None else Some InvalidRefundReceiver
  | GasPriceFloorCheck =>
      if gas_price req <? GasPrices.standard gas_prices then Some GasPriceTooLow
      else None
  | FundsCheck =>
      if balance c (safe_address req) <? required_funds req
      then Some NotEnoughFundsForMultisigTx
      else None
  end.

Fixpoint first_violation (c : Chain) (req : Request) (checks : list policy_check)
  : option error :=
  match checks with
  | [] => None
  | check :: rest =>
      match violation c req check with
      | Some e => Some e
      | None => first_violation c req rest
      end
  end.

(** Modelled from the spec: the effect of an accepted submission on the
    chain: the transaction is executed, and the value and the refund leave
    the wallet. *)
Definition execute (c : Chain) (req : Request) : Chain :=
  let safe := safe_address req in
  let debited :=
    update (balance c) safe (balance c safe - value req - refund_paid req) in
  mkChain (update debited (to req) (debited (to req) + value req))
          (owners c)
          (executed c ++ [req]).

(** Modelled from the spec: [send_multisig_tx] of
    [services/transaction_service.py], which is missing from the sources.
    Section 4.3 gives the checks and their errors.  A gas price of 0 is
    refused whatever the other arguments (section 8), so that check comes
    first; the test gets the errors of the policy checks on requests whose
    signatures were made over another hash (l.95, l.138-186), so the
    signatures are verified once the policy checks have passed. *)
Definition send_multisig_tx (c : Chain) (req : Request) : outcome * Chain :=
  if gas_price req =? 0 then (Failed RefundMustBeEnabled, c)
  else
    match first_violation c req order with
    | Some e => (Failed e, c)
    | None =>
        if negb (signatures_valid c req) then (Failed InvalidSignatures, c)
        else (Sent (hash_of_sent req (nonce c (safe_address req))) req,
              execute c req)
    end.

End Relay.

End TransactionService.

(** ** Scripted collaborators

    Small stand-ins for the collaborators, in the manner of the mocks of the
    test suite, on which the service can be run. *)

Module Scenario.
Local Open Scope string_scope.

(** A node that counts the transactions it was handed and answers each kind
    of read either with a fixed value or with the same RPC error. *)
Record Node : Type := mkNode {
  submitted : nat;
  failing : attribute -> bool
}.

Definition rpc_error : exn :=
  CollaboratorError "Could not call contract function".

Definition answer {A : Type} (n : Node) (what : attribute) (a : A) : result A :=
  if failing n what then Raise rpc_error else Ok a.

Definition safe_1 : string := "0x5afe000000000000000000000000000000000001".
Definition master : string := "0x3a57e70000000000000000000000000000000001".
Definition factory : string := "0xfac7000000000000000000000000000000000001".
Definition owner_1 : string := "0x0123000000000000000000000000000000000001".
Definition owner_2 : string := "0x0123000000000000000000000000000000000002".
Definition gas_token_1 : string := "0x70ce000000000000000000000000000000000001".
Definition plain_token : string := "0x70ce000000000000000000000000000000000002".
Definition unknown_token : string := "0x70ce000000000000000000000000000000000003".

Definition scripted_safe_service : SafeService Node :=
  mkSafeService Node
    (fun _ s owners threshold gas_price payment_token _ fixed_creation_cost =>
       Ok (SafeCreationTx.mk safe_1 master "0xde9107e4" "0xf00de4"
             (fixed_creation_cost + 21000 * gas_price) (TxHash.mk "01ab")
             21000 gas_price payment_token (Transaction.mk 0 []) 27 1 s []))
    (fun _ salt_nonce owners threshold gas_price payment_token _ fixed_creation_cost =>
       Ok (SafeCreate2Tx.mk safe_1 master factory payment_token
             (fixed_creation_cost + 21000 * gas_price) NULL_ADDRESS [Byte.x5e]
             21000 gas_price))
    (fun n _ _ _ _ _ =>
       (Ok ([Signatures.byte_of_Z (Z.of_nat (submitted n))], safe_1),
        mkNode (S (submitted n)) (failing n)))
    (fun n _ => answer n Nonce 0)
    (fun n _ => answer n Threshold 2)
    (fun n _ => answer n Owners [owner_1; owner_2])
    (fun n _ => answer n MasterCopy master)
    (fun n _ => answer n Version "1.0.0").

Definition service : SafeCreationService Node :=
  mkSafeCreationService Node scripted_safe_service
    (mkGasStation (Ok (GasPrices.mk 1 2))) "funder-private-key" 0.

(** A persistence layer that accepts every write. *)
Definition accepts_all : Db -> write -> bool := fun _ _ => true.

(** A persistence layer on which the wallet stubs can be written and the
    writes of creation records are rejected. *)
Definition records_rejected : Db -> write -> bool :=
  fun _ w => match w with InsertSafeContract _ => true | _ => false end.

Definition healthy_node : Node := mkNode 0 (fun _ => false).

(** Nodes on which one read fails. *)
Definition nonce_read_fails : Node :=
  mkNode 0 (fun what => match what with Nonce => true | _ => false end).
Definition version_read_fails : Node :=
  mkNode 0 (fun what => match what with Version => true | _ => false end).

Definition token_table : list Token.t :=
  [Token.mk gas_token_1 true (1 # 2); Token.mk plain_token false (1 # 4)].

Definition empty_world : World Node :=
  mkWorld (mkDb token_table [] [] []) healthy_node [].

(** The world after [create2_safe_tx] registered [safe_1]. *)
Definition salted_record : SafeCreation2.t :=
  SafeCreation2.mk safe_1 master factory 7 [owner_1; owner_2] 2 None 42000
    NULL_ADDRESS [Byte.x5e] 21000 2 None.

Definition world_with_record : World Node :=
  mkWorld (mkDb token_table [SafeContract.mk safe_1 master] [] [salted_record])
          healthy_node [].

(** *** The relay, as the test drives it *)

Fixpoint bytes_eqb (a b : bytes) : bool :=
  match a, b with
  | [], [] => true
  | x :: a', y :: b' => Byte.eqb x y && bytes_eqb a' b'
  | _, _ => false
  end.

(** A stand-in for the structured hash: the fields written one after the
    other, so that two requests that differ in a field differ in their hash. *)
Definition plain_hash :
  string -> string -> Z -> bytes -> Z -> Z -> Z -> Z -> string -> string -> Z -> bytes :=
  fun safe to value data operation safe_tx_gas data_gas gas_price gas_token
      refund_receiver nonce =>
    (list_byte_of_string safe ++ list_byte_of_string to ++
     Signatures.digits_be 32 value ++ data ++ Signatures.digits_be 1 operation ++
     Signatures.digits_be 32 safe_tx_gas ++ Signatures.digits_be 32 data_gas ++
     Signatures.digits_be 32 gas_price ++ list_byte_of_string gas_token ++
     list_byte_of_string refund_receiver ++ Signatures.digits_be 32 nonce)%list.

(** A stand-in for signing: an owner's signature over a hash is the owner's
    address followed by the hash, and the packed signatures verify when they
    are the signatures of the owners, in order, over the hash. *)
Definition plain_signatures (h : bytes) (owners : list string) : bytes :=
  List.concat (map (fun owner => (list_byte_of_string owner ++ h)%list) owners).

Definition plain_check_hash (h signatures : bytes) (owners : list string) : bool :=
  bytes_eqb signatures (plain_signatures h owners).

Definition no_extra_receiver : string -> bool := fun _ => false.
Definition quote : GasPrices.t := GasPrices.mk 1000000000 2000000000.
Definition stub_hash_of_sent : TransactionService.Request -> Z -> bytes :=
  fun _ n => [Signatures.byte_of_Z n].
Definition no_refund : TransactionService.Request -> Z := fun _ => 0.

(** A deployed wallet with one owner and nothing on its account. *)
Definition unfunded_chain : TransactionService.Chain :=
  TransactionService.mkChain (fun _ => 0) (fun _ => [owner_1]) [].

(** The wallet after the transfer of 0.01 ether of the test. *)
Definition funded_chain : TransactionService.Chain :=
  TransactionService.fund unfunded_chain safe_1 10000000000000000.

(** The signatures of the test (l.95-97): made once, over the hash of the
    request with the standard gas price and the zero address as refund
    receiver, on the new wallet. *)
Definition signatures_packed : bytes :=
  plain_signatures
    (plain_hash safe_1 owner_2 5000000000000000 [] 0 100000 300000 1000000000
       NULL_ADDRESS NULL_ADDRESS 0)
    [owner_1].

(** The request of the test with the gas price and the refund receiver of one
    of its calls; the signatures are the same in every call. *)
Definition request (gas_price : Z) (refund_receiver : string)
  : TransactionService.Request :=
  TransactionService.mkRequest safe_1 owner_2 5000000000000000 [] 0 100000 300000
    gas_price NULL_ADDRESS refund_receiver signatures_packed "sender-private-key".

Definition relay (c : TransactionService.Chain) (req : TransactionService.Request) :=
  TransactionService.send_multisig_tx plain_hash plain_check_hash no_extra_receiver
    quote stub_hash_of_sent no_refund TransactionService.policy_checks c req.

End Scenario.

(** ** The remaining operations of the service *)

Section Estimation.
Local Open Scope service_scope.

Variable Node : Type.

(** [SafeCreationEstimate] of [gnosis.safe], which the service only hands
    back. *)
Variable Estimate : Type.

Variable self : SafeCreationService Node.

(** [self.safe_service.estimate_safe_creation] *)
Variable safe_service_estimate_safe_creation :
  Node -> Z -> Z -> string -> float -> Z -> result Estimate.

Definition estimate_safe_creation (number_owners : Z) (payment_token : option string)
  : M Node Estimate :=
  let payment_token := or_null payment_token in
  payment_token_eth_value <- _get_token_eth_value_or_raise Node (Some payment_token) ;;
  gas_prices <- gas_station_get_gas_prices Node self ;;
  let gas_price := GasPrices.fast gas_prices in
  let fixed_creation_cost := safe_fixed_creation_cost self in
  fun world =>
    (safe_service_estimate_safe_creation (node world) number_owners gas_price
       payment_token payment_token_eth_value fixed_creation_cost,
     world).

End Estimation.

(** [django.conf.settings], the two entries the provider reads. *)
Module Settings.
Record t : Type := mk {
  SAFE_FUNDER_PRIVATE_KEY : string;
  SAFE_FIXED_CREATION_COST : Z
}.
End Settings.

(** [class SafeCreationServiceProvider]: the class attribute [instance] is
    the state, absent until the first call. *)
Module SafeCreationServiceProvider.
Section Provider.
Variable Node : Type.

Definition cls : Type := option (SafeCreationService Node).

(** [SafeCreationServiceProvider()]; the arguments are what
    [SafeServiceProvider()] and [GasStationProvider()] return and the
    settings at the time of the call. *)
Definition __new__ (SafeServiceProvider : SafeService Node)
  (GasStationProvider : GasStation) (settings : Settings.t) (c : cls)
  : SafeCreationService Node * cls :=
  match c with
  | Some instance => (instance, Some instance)
  | None =>
      let instance :=
        mkSafeCreationService Node SafeServiceProvider GasStationProvider
          (Settings.SAFE_FUNDER_PRIVATE_KEY settings)
          (Settings.SAFE_FIXED_CREATION_COST settings) in
      (instance, Some instance)
  end.

Definition del_singleton (c : cls) : cls :=
  match c with
  | Some _ => None
  | None => None
  end.

End Provider.
End SafeCreationServiceProvider.

(** [class RelayTestCaseMixin]: the helpers that put a wallet into the
    tables.  The random sources ([generate_valid_s], [generate_salt_nonce],
    [Account.create]) draw from an explicit generator state. *)
Module RelayTestCaseMixin.
Section Helpers.
Variable Node : Type.
Variable Rng : Type.
Variable accepts : Db -> write -> bool.
Variable safe_creation_service : SafeCreationService Node.
Variable generate_valid_s : Rng -> Z * Rng.
Variable generate_salt_nonce : Rng -> Z * Rng.
Variable Account_create_address : Rng -> string * Rng.

(** [[Account.create().address for _ in range(n)]] *)
Fixpoint created_addresses (n : nat) (rng : Rng) : list string * Rng :=
  match n with
  | O => ([], rng)
  | S n' =>
      let '(address, rng1) := Account_create_address rng in
      let '(rest, rng2) := created_addresses n' rng1 in
      (address :: rest, rng2)
  end.

(** [owners or [Account.create().address for _ in range(number_owners)]] *)
Definition owners_or_created (owners : option (list string)) (number_owners : Z)
  (rng : Rng) : list string * Rng :=
  match owners with
  | Some (owner :: rest) => (owner :: rest, rng)
  | Some [] => created_addresses (Z.to_nat number_owners) rng
  | None => created_addresses (Z.to_nat number_owners) rng
  end.

(** [threshold if threshold else len(owners)] *)
Definition threshold_or_len (threshold : option Z) (owners : list string) : Z :=
  match threshold with
  | Some t => if t =? 0 then Z.of_nat (length owners) else t
  | None => Z.of_nat (length owners)
  end.

Definition create_test_safe_in_db (owners : option (list string)) (number_owners : Z)
  (threshold : option Z) (payment_token : option string)
  (rng : Rng) (world : World Node) : result SafeCreation.t * World Node * Rng :=
  let '(s, rng1) := generate_valid_s rng in
  let '(owners, rng2) := owners_or_created owners number_owners rng1 in
  let threshold := threshold_or_len threshold owners in
  let '(safe_creation, world') :=
    create_safe_tx Node accepts safe_creation_service s owners threshold payment_token
      world in
  (safe_creation, world', rng2).

(** [salt_nonce or generate_salt_nonce()] *)
Definition salt_nonce_or_generated (salt_nonce : option Z) (rng : Rng) : Z * Rng :=
  match salt_nonce with
  | Some n => if n =? 0 then generate_salt_nonce rng else (n, rng)
  | None => generate_salt_nonce rng
  end.

Definition create2_test_safe_in_db (owners : option (list string)) (number_owners : Z)
  (threshold : option Z) (payment_token : option string) (salt_nonce : option Z)
  (rng : Rng) (world : World Node) : result SafeCreation2.t * World Node * Rng :=
  let '(salt_nonce, rng1) := salt_nonce_or_generated salt_nonce rng in
  let '(owners, rng2) := owners_or_created owners number_owners rng1 in
  let threshold := threshold_or_len threshold owners in
  let '(safe_creation, world') :=
    create2_safe_tx Node accepts safe_creation_service salt_nonce owners threshold
      payment_token world in
  (safe_creation, world', rng2).

End Helpers.
End RelayTestCaseMixin.

(** [test_send_multisig_tx], the preparation of the owners (lines 35-40):
    the (address, key) pairs are sorted by lower-cased address, then split
    into the list of owners and the list of keys. *)
Module TestSendMultisigTx.
Section Owners.

(** [str.lower] *)
Variable lower : string -> string.

(** [key=lambda x: x[0].lower()] *)
Definition sort_key (x : string * string) : string := lower (fst x).

(** [list.sort(key=...)]: a stable sort, ascending in the key; strings
    compare by their characters from the left. *)
Fixpoint insert_sorted (x : string * string) (sorted : list (string * string))
  : list (string * string) :=
  match sorted with
  | [] => [x]
  | y :: rest =>
      if String.leb (sort_key x) (sort_key y) then x :: y :: rest
      else y :: insert_sorted x rest
  end.

Fixpoint sort (owners_with_keys : list (string * string)) : list (string * string) :=
  match owners_with_keys with
  | [] => []
  | x :: rest => insert_sorted x (sort rest)
  end.

(** [owners], [keys] and [threshold] as the test derives them. *)
Definition owners (owners_with_keys : list (string * string)) : list string :=
  map fst (sort owners_with_keys).

Definition keys (owners_with_keys : list (string * string)) : list string :=
  map snd (sort owners_with_keys).

Definition threshold (owners_with_keys : list (string * string)) : Z :=
  Z.of_nat (length (sort owners_with_keys)).

End Owners.
End TestSendMultisigTx.

(** ** More vocabulary of the statements *)

(** The row [create_safe_tx] builds from the builder's transaction. *)
Definition SafeCreation_of (tx : SafeCreationTx.t) (owners : list string) (threshold : Z)
  : SafeCreation.t :=
  SafeCreation.mk
    (SafeCreationTx.deployer_address tx) (SafeCreationTx.safe_address tx)
    (SafeCreationTx.master_copy tx) (SafeCreationTx.funder tx) owners threshold
    (SafeCreationTx.payment tx) (TxHash.hex (SafeCreationTx.tx_hash tx))
    (SafeCreationTx.gas tx) (SafeCreationTx.gas_price tx)
    (stored_payment_token (SafeCreationTx.payment_token tx))
    (Transaction.value (SafeCreationTx.tx_pyethereum tx))
    (SafeCreationTx.v tx) (SafeCreationTx.r tx) (SafeCreationTx.s tx)
    (Transaction.data (SafeCreationTx.tx_pyethereum tx))
    (SafeCreationTx.tx_raw tx).

(** The row [create2_safe_tx] builds from the builder's transaction. *)
Definition SafeCreation2_of (tx : SafeCreate2Tx.t) (salt_nonce : Z) (owners : list string)
  (threshold : Z) : SafeCreation2.t :=
  SafeCreation2.mk
    (SafeCreate2Tx.safe_address tx) (SafeCreate2Tx.master_copy_address tx)
    (SafeCreate2Tx.proxy_factory_address tx) salt_nonce owners threshold
    (stored_payment_token (SafeCreate2Tx.payment_token tx))
    (SafeCreate2Tx.payment tx) (SafeCreate2Tx.payment_receiver tx)
    (SafeCreate2Tx.safe_setup_data tx) (SafeCreate2Tx.gas tx)
    (SafeCreate2Tx.gas_price tx) None.

Definition stub_of (tx : SafeCreationTx.t) : SafeContract.t :=
  SafeContract.mk (SafeCreationTx.safe_address tx) (SafeCreationTx.master_copy tx).

Definition stub2_of (tx : SafeCreate2Tx.t) : SafeContract.t :=
  SafeContract.mk (SafeCreate2Tx.safe_address tx) (SafeCreate2Tx.master_copy_address tx).

(** The world after the steps that only read: the token lookup, if one is
    made, and the query of the gas station. *)
Definition after_lookups {Node : Type} (payment_token : option string) (w : World Node)
  : World Node :=
  logged GasStationQuery
    (if String.eqb (or_null payment_token) NULL_ADDRESS then w
     else logged (TokenLookup (or_null payment_token)) w).

(** The world after a write that was accepted. *)
Definition written {Node : Type} (wr : write) (w : World Node) : World Node :=
  mkWorld (apply_write wr (db w)) (node w) (trace w ++ [Written wr]).

(** Every creation record of the tables points to a wallet stub of the
    tables. *)
Definition has_stub (d : Db) (safe : string) : Prop :=
  exists stub, In stub (safe_contracts d) /\ SafeContract.address stub = safe.

Definition records_have_stubs (d : Db) : Prop :=
  (forall row, In row (safe_creations d) -> has_stub d (SafeCreation.safe row)) /\
  (forall row, In row (safe_creations2 d) -> has_stub d (SafeCreation2.safe row)).

(** No two rows of the token table share an address. *)
Definition token_addresses_unique (d : Db) : Prop :=
  NoDup (map Token.address (tokens d)).

(** The records of the salted scheme held for an address. *)
Definition records_at (safe_address : string) (d : Db) : list SafeCreation2.t :=
  filter (fun row => String.eqb (SafeCreation2.safe row) safe_address)
         (safe_creations2 d).

(** A salted record with its transaction hash left out. *)
Definition without_tx_hash (row : SafeCreation2.t) : SafeCreation2.t :=
  SafeCreation2.mk
    (SafeCreation2.safe row) (SafeCreation2.master_copy row)
    (SafeCreation2.proxy_factory row) (SafeCreation2.salt_nonce row)
    (SafeCreation2.owners row) (SafeCreation2.threshold row)
    (SafeCreation2.payment_token row) (SafeCreation2.payment row)
    (SafeCreation2.payment_receiver row) (SafeCreation2.setup_data row)
    (SafeCreation2.gas_estimated row) (SafeCreation2.gas_price_estimated row) None.

(** *** Scripted collaborators for the remaining operations *)

Module Fixtures.
Local Open Scope string_scope.

(** An estimator that charges 21000 gas per owner. *)
Definition scripted_estimate :
  Scenario.Node -> Z -> Z -> string -> float -> Z -> result (Z * Z * Z) :=
  fun _ number_owners gas_price _ _ fixed_creation_cost =>
    Ok (21000 * number_owners, gas_price,
        fixed_creation_cost + 21000 * number_owners * gas_price).

(** A generator that counts up: the n-th draw yields n. *)
Definition counting_s : nat -> Z * nat := fun n => (Z.of_nat n + 1, S n).
Definition counting_salt : nat -> Z * nat := fun n => (Z.of_nat n + 100, S n).
Definition counting_address : nat -> string * nat :=
  fun n => (String (ascii_of_nat (65 + n)) "", S n).

Definition settings_a : Settings.t := Settings.mk "key-a" 0.
Definition settings_b : Settings.t := Settings.mk "key-b" 5.

(** A token table in which one address was registered twice. *)
Definition doubled_world : World Scenario.Node :=
  mkWorld
    (mkDb [Token.mk Scenario.gas_token_1 true (1 # 2);
           Token.mk Scenario.gas_token_1 true (1 # 3)] [] [] [])
    Scenario.healthy_node [].

(** The scripted service with a gas station that is down, and with a builder
    that refuses to build. *)
Definition station_down : SafeCreationService Scenario.Node :=
  mkSafeCreationService Scenario.Node Scenario.scripted_safe_service
    (mkGasStation (Raise (CollaboratorError "gas station unreachable")))
    "funder-private-key" 0.

Definition builder_down : SafeCreationService Scenario.Node :=
  mkSafeCreationService Scenario.Node
    (mkSafeService Scenario.Node
       (fun _ _ _ _ _ _ _ _ => Raise (CollaboratorError "cannot build"))
       (fun _ _ _ _ _ _ _ _ => Raise (CollaboratorError "cannot build"))
       (deploy_proxy_contract_with_nonce Scenario.scripted_safe_service)
       (retrieve_nonce Scenario.scripted_safe_service)
       (retrieve_threshold Scenario.scripted_safe_service)
       (retrieve_owners Scenario.scripted_safe_service)
       (retrieve_master_copy_address Scenario.scripted_safe_service)
       (retrieve_version Scenario.scripted_safe_service))
    (mkGasStation (Ok (GasPrices.mk 1 2))) "funder-private-key" 0.

(** What the scripted builders return for one owner, paid in ether, at the
    fast price 2. *)
Definition built_tx : SafeCreationTx.t :=
  SafeCreationTx.mk Scenario.safe_1 Scenario.master "0xde9107e4" "0xf00de4" 42000
    (TxHash.mk "01ab") 21000 2 NULL_ADDRESS (Transaction.mk 0 []) 27 1 5 [].

Definition built_tx2 : SafeCreate2Tx.t :=
  SafeCreate2Tx.mk Scenario.safe_1 Scenario.master Scenario.factory NULL_ADDRESS 42000
    NULL_ADDRESS [Byte.x5e] 21000 2.

(** Lower case of the letters A to Z, which is what [str.lower] does on an
    address. *)
Definition lower_ascii (c : ascii) : ascii :=
  let n := nat_of_ascii c in
  if (Nat.leb 65 n && Nat.leb n 90)%bool then ascii_of_nat (n + 32) else c.

Fixpoint lower_address (s : string) : string :=
  match s with
  | EmptyString => EmptyString
  | String c rest => String (lower_ascii c) (lower_address rest)
  end.

(** A persistence layer that refuses every write. *)
Definition read_only_database : Db -> write -> bool := fun _ _ => false.

End Fixtures.

(** * Properties *)

(** ** The monad *)

Section MonadFacts.
Variable Node : Type.

Lemma bind_inv {A B : Type} (m : M Node A) (k : A -> M Node B) w r w' :
  bind m k w = (r, w') ->
  (exists a w1, m w = (Ok a, w1) /\ k a w1 = (r, w')) \/
  (exists e, m w = (Raise e, w') /\ r = Raise e).
Proof.
  unfold bind. destruct (m w) as [[a | e] w1]; intros H.
  - left. exists a, w1. split; [reflexivity | exact H].
  - right. exists e. inversion H; subst. split; reflexivity.
Qed.

Lemma bind_Ok {A B : Type} (m : M Node A) (k : A -> M Node B) w a w1 :
  m w = (Ok a, w1) -> bind m k w = k a w1.
Proof. intros H. unfold bind. rewrite H. reflexivity. Qed.

Lemma bind_Raise {A B : Type} (m : M Node A) (k : A -> M Node B) w e w1 :
  m w = (Raise e, w1) -> bind m k w = (Raise e, w1).
Proof. intros H. unfold bind. rewrite H. reflexivity. Qed.

End MonadFacts.

(** ** Resolution of the payment token *)

Section TokenResolution.
Variable Node : Type.

Lemma token_lookup_run (a : string) (w : World Node) :
  Token_objects_get Node a w =
  (objects_get "Token"
     (fun row => String.eqb (Token.address row) a && Bool.eqb (Token.gas row) true)
     (tokens (db w)),
   logged (TokenLookup a) w).
Proof. reflexivity. Qed.

(** What [_get_token_eth_value_or_raise] does, by cases on the address and on
    the rows the lookup selects. *)
Lemma token_value_run (address : option string) (w : World Node) :
  _get_token_eth_value_or_raise Node address w =
  if String.eqb (or_null address) NULL_ADDRESS then (Ok float_1_0, w)
  else
    match gas_tokens_at (or_null address) (db w) with
    | [] => (Raise (InvalidPaymentToken (or_null address)),
             logged (TokenLookup (or_null address)) w)
    | [token] => (Ok (Token.get_eth_value token),
                  logged (TokenLookup (or_null address)) w)
    | _ :: _ :: _ => (Raise (MultipleObjectsReturned "Token"),
                      logged (TokenLookup (or_null address)) w)
    end.
Proof.
  unfold _get_token_eth_value_or_raise.
  destruct (String.eqb (or_null address) NULL_ADDRESS); [reflexivity |].
  unfold try_except, bind. rewrite token_lookup_run.
  unfold objects_get, gas_tokens_at.
  destruct (filter _ (tokens (db w))) as [| token [| token' rest]]; reflexivity.
Qed.

Lemma token_value_read_only (address : option string) :
  read_only (_get_token_eth_value_or_raise Node address).
Proof.
  intros w r w' H. rewrite token_value_run in H.
  destruct (String.eqb (or_null address) NULL_ADDRESS).
  - inversion H; subst. split; reflexivity.
  - destruct (gas_tokens_at _ _) as [| token [| token' rest]];
      inversion H; subst; split; reflexivity.
Qed.

Lemma gas_tokens_at_In (a : string) (d : Db) (token : Token.t) :
  In token (gas_tokens_at a d) ->
  In token (tokens d) /\ Token.address token = a /\ Token.gas token = true.
Proof.
  unfold gas_tokens_at. rewrite filter_In. intros [Hin Hm].
  apply andb_true_iff in Hm as [Ha Hg].
  apply String.eqb_eq in Ha. apply Bool.eqb_prop in Hg.
  repeat split; assumption.
Qed.

(** C6: [_get_token_eth_value_or_raise] answers 1.0 for the zero address (and
    for a missing or empty address, which stand for it) and leaves the world
    as it was, so no lookup was made; it raises [InvalidPaymentToken] with an
    address exactly when that address is the one asked for, is not the zero
    address and no row of the token table has it with [gas] set; and a value
    it returns for another address is the value of such a row, never one made
    up for a token that is not registered. *)
Theorem payment_token_resolution (address : option string) (w : World Node) :
  let run := _get_token_eth_value_or_raise Node address w in
  (or_null address = NULL_ADDRESS -> run = (Ok float_1_0, w)) /\
  (forall a, fst run = Raise (InvalidPaymentToken a) <->
             a = or_null address /\ a <> NULL_ADDRESS /\ gas_tokens_at a (db w) = []) /\
  (or_null address <> NULL_ADDRESS ->
   forall value, fst run = Ok value ->
     exists token, In token (tokens (db w)) /\
                   Token.address token = or_null address /\
                   Token.gas token = true /\
                   value = Token.get_eth_value token).
Proof.
  cbv zeta. rewrite token_value_run.
  destruct (String.eqb (or_null address) NULL_ADDRESS) eqn:Hnull.
  - apply String.eqb_eq in Hnull. split; [intros _; reflexivity | split].
    + intros a. simpl. split.
      * intros H. discriminate H.
      * intros [Ha [Hn _]]. subst a. contradiction.
    + intros Hn. contradiction.
  - apply String.eqb_neq in Hnull. split; [intros Hz; contradiction | split].
    + intros a. split.
      * destruct (gas_tokens_at (or_null address) (db w)) as [| token [| token' rest]] eqn:Hrows;
          simpl; intros H; inversion H; subst.
        repeat split; assumption.
      * intros [Ha [_ Hempty]]. subst a. rewrite Hempty. reflexivity.
    + intros _ value.
      destruct (gas_tokens_at (or_null address) (db w)) as [| token [| token' rest]] eqn:Hrows;
        simpl; intros H; try discriminate H.
      inversion H; subst. exists token.
      assert (Hin : In token (gas_tokens_at (or_null address) (db w)))
        by (rewrite Hrows; left; reflexivity).
      apply gas_tokens_at_In in Hin as [Hin [Ha Hg]].
      repeat split; assumption.
Qed.

End TokenResolution.

(** The theorem at the zero address and at a token that is not registered. *)
Lemma payment_token_resolution_witness :
  _get_token_eth_value_or_raise Scenario.Node (Some NULL_ADDRESS) Scenario.empty_world
    = (Ok float_1_0, Scenario.empty_world) /\
  fst (_get_token_eth_value_or_raise Scenario.Node (Some Scenario.unknown_token)
         Scenario.empty_world)
    = Raise (InvalidPaymentToken Scenario.unknown_token).
Proof.
  split.
  - apply (payment_token_resolution Scenario.Node (Some NULL_ADDRESS) Scenario.empty_world).
    reflexivity.
  - apply (payment_token_resolution Scenario.Node (Some Scenario.unknown_token)
             Scenario.empty_world).
    split; [reflexivity | split; [discriminate | reflexivity]].
Defined.

(** ** Creation of the records *)

Section Creation.
Variable Node : Type.
Variable accepts : Db -> write -> bool.
Variable self : SafeCreationService Node.

Lemma or_null_idempotent (x : option string) : or_null (Some (or_null x)) = or_null x.
Proof. destruct x as [[| c rest] |]; reflexivity. Qed.

Lemma gas_station_read_only : read_only (gas_station_get_gas_prices Node self).
Proof.
  intros w r w' H. unfold gas_station_get_gas_prices, bind, emit, lift in H.
  inversion H; subst. split; reflexivity.
Qed.

Lemma perform_run (wr : write) (w : World Node) :
  perform Node accepts wr w =
  if accepts (db w) wr
  then (Ok tt, mkWorld (apply_write wr (db w)) (node w) (trace w ++ [Written wr]))
  else (Raise (DatabaseError (model_of wr)), w).
Proof. reflexivity. Qed.

(** An insert followed by the return of the row. *)
Lemma insert_then_return {A : Type} (wr : write) (row : A) (w : World Node) r w' :
  bind (perform Node accepts wr) (fun _ => ret row) w = (r, w') ->
  (accepts (db w) wr = true /\ r = Ok row /\
   db w' = apply_write wr (db w) /\ node w' = node w) \/
  (accepts (db w) wr = false /\ r = Raise (DatabaseError (model_of wr)) /\ w' = w).
Proof.
  unfold bind, ret. rewrite perform_run.
  destruct (accepts (db w) wr); intros H; inversion H; subst.
  - left. repeat split.
  - right. repeat split.
Qed.

Lemma stored_payment_token_not_null (payment_token : string) :
  stored_payment_token payment_token <> Some NULL_ADDRESS.
Proof.
  unfold stored_payment_token.
  destruct (String.eqb payment_token NULL_ADDRESS) eqn:E; [discriminate |].
  apply String.eqb_neq in E. intros H. inversion H. contradiction.
Qed.

Lemma stored_payment_token_cases (payment_token : string) :
  (payment_token = NULL_ADDRESS -> stored_payment_token payment_token = None) /\
  (payment_token <> NULL_ADDRESS ->
   stored_payment_token payment_token = Some payment_token).
Proof.
  unfold stored_payment_token. split; intros H.
  - apply String.eqb_eq in H. rewrite H. reflexivity.
  - apply String.eqb_neq in H. rewrite H. reflexivity.
Qed.

(** The three ways a call of [create_safe_tx] can end: nothing written; the
    stub written and the record refused; both written. *)
Lemma create_safe_tx_outcomes s owners threshold payment_token w r w' :
  create_safe_tx Node accepts self s owners threshold payment_token w = (r, w') ->
  node w' = node w /\
  ((db w' = db w /\ exists e, r = Raise e) \/
   (exists stub,
      r = Raise (DatabaseError "SafeCreation") /\
      accepts (db w) (InsertSafeContract stub) = true /\
      db w' = apply_write (InsertSafeContract stub) (db w)) \/
   (exists tx fast_gas_price eth_value row,
      build_safe_creation_tx (safe_service self) (node w) s owners threshold
        fast_gas_price (or_null payment_token) eth_value
        (safe_fixed_creation_cost self) = Ok tx /\
      r = Ok row /\
      SafeCreation.safe row = SafeCreationTx.safe_address tx /\
      SafeCreation.payment_token row =
        stored_payment_token (SafeCreationTx.payment_token tx) /\
      db w' = apply_write (InsertSafeCreation row)
                (apply_write
                   (InsertSafeContract
                      (SafeContract.mk (SafeCreationTx.safe_address tx)
                                       (SafeCreationTx.master_copy tx)))
                   (db w)))).
Proof.
  unfold create_safe_tx. intros H.
  apply bind_inv in H as [(eth_value & w1 & Htok & H) | (e & Htok & Hr)].
  2:{ apply token_value_read_only in Htok as [Hdb Hnode].
      split; [exact Hnode | left; split; [exact Hdb | exists e; exact Hr]]. }
  apply token_value_read_only in Htok as [Hdb1 Hnode1].
  apply bind_inv in H as [(prices & w2 & Hgas & H) | (e & Hgas & Hr)].
  2:{ apply gas_station_read_only in Hgas as [Hdb Hnode].
      split; [congruence | left; split; [congruence | exists e; exact Hr]]. }
  apply gas_station_read_only in Hgas as [Hdb2 Hnode2].
  apply bind_inv in H as [(tx & w3 & Hbuild & H) | (e & Hbuild & Hr)].
  2:{ inversion Hbuild; subst.
      split; [congruence | left; split; [congruence | exists e; reflexivity]]. }
  inversion Hbuild as [[Htx Hw3]]; subst w3. clear Hbuild.
  apply bind_inv in H as [(stub & w4 & Hstub & H) | (e & Hstub & Hr)].
  2:{ apply insert_then_return in Hstub as [(_ & Hbad & _) | (_ & He & Hw)];
        [discriminate Hbad |].
      inversion He; subst.
      split; [congruence | left; split; [congruence | eexists; reflexivity]]. }
  apply insert_then_return in Hstub as [(Hacc & Hok & Hdb4 & Hnode4) | (_ & Hbad & _)];
    [| discriminate Hbad].
  inversion Hok; subst stub. clear Hok.
  apply insert_then_return in H as [(Hacc' & Hok & Hdb5 & Hnode5) | (_ & He & Hw)].
  - split; [congruence |]. right. right.
    rewrite Hnode2, Hnode1 in Htx.
    eexists tx, _, _, _. split; [exact Htx |].
    split; [exact Hok |]. split; [reflexivity |]. split; [reflexivity |].
    rewrite Hdb5, Hdb4, Hdb2, Hdb1. reflexivity.
  - subst w'. split; [congruence |]. right. left.
    eexists. split; [exact He |].
    rewrite <- Hdb1, <- Hdb2. split; [exact Hacc |].
    rewrite Hdb4. reflexivity.
Qed.

(** The same for [create2_safe_tx]. *)
Lemma create2_safe_tx_outcomes salt_nonce owners threshold payment_token w r w' :
  create2_safe_tx Node accepts self salt_nonce owners threshold payment_token w = (r, w') ->
  node w' = node w /\
  ((db w' = db w /\ exists e, r = Raise e) \/
   (exists stub,
      r = Raise (DatabaseError "SafeCreation2") /\
      accepts (db w) (InsertSafeContract stub) = true /\
      db w' = apply_write (InsertSafeContract stub) (db w)) \/
   (exists tx fast_gas_price eth_value row,
      build_safe_create2_tx (safe_service self) (node w) salt_nonce owners threshold
        fast_gas_price (or_null payment_token) eth_value
        (safe_fixed_creation_cost self) = Ok tx /\
      r = Ok row /\
      SafeCreation2.safe row = SafeCreate2Tx.safe_address tx /\
      SafeCreation2.payment_token row =
        stored_payment_token (SafeCreate2Tx.payment_token tx) /\
      db w' = apply_write (InsertSafeCreation2 row)
                (apply_write
                   (InsertSafeContract
                      (SafeContract.mk (SafeCreate2Tx.safe_address tx)
                                       (SafeCreate2Tx.master_copy_address tx)))
                   (db w)))).
Proof.
  unfold create2_safe_tx. intros H.
  apply bind_inv in H as [(eth_value & w1 & Htok & H) | (e & Htok & Hr)].
  2:{ apply token_value_read_only in Htok as [Hdb Hnode].
      split; [exact Hnode | left; split; [exact Hdb | exists e; exact Hr]]. }
  apply token_value_read_only in Htok as [Hdb1 Hnode1].
  apply bind_inv in H as [(prices & w2 & Hgas & H) | (e & Hgas & Hr)].
  2:{ apply gas_station_read_only in Hgas as [Hdb Hnode].
      split; [congruence | left; split; [congruence | exists e; exact Hr]]. }
  apply gas_station_read_only in Hgas as [Hdb2 Hnode2].
  apply bind_inv in H as [(tx & w3 & Hbuild & H) | (e & Hbuild & Hr)].
  2:{ inversion Hbuild; subst.
      split; [congruence | left; split; [congruence | exists e; reflexivity]]. }
  inversion Hbuild as [[Htx Hw3]]; subst w3. clear Hbuild.
  apply bind_inv in H as [(stub & w4 & Hstub & H) | (e & Hstub & Hr)].
  2:{ apply insert_then_return in Hstub as [(_ & Hbad & _) | (_ & He & Hw)];
        [discriminate Hbad |].
      inversion He; subst.
      split; [congruence | left; split; [congruence | eexists; reflexivity]]. }
  apply insert_then_return in Hstub as [(Hacc & Hok & Hdb4 & Hnode4) | (_ & Hbad & _)];
    [| discriminate Hbad].
  inversion Hok; subst stub. clear Hok.
  apply insert_then_return in H as [(Hacc' & Hok & Hdb5 & Hnode5) | (_ & He & Hw)].
  - split; [congruence |]. right. right.
    rewrite Hnode2, Hnode1 in Htx.
    eexists tx, _, _, _. split; [exact Htx |].
    split; [exact Hok |]. split; [reflexivity |]. split; [reflexivity |].
    rewrite Hdb5, Hdb4, Hdb2, Hdb1. reflexivity.
  - subst w'. split; [congruence |]. right. left.
    eexists. split; [exact He |].
    rewrite <- Hdb1, <- Hdb2. split; [exact Hacc |].
    rewrite Hdb4. reflexivity.
Qed.

Lemma unresolvable_token_run {A : Type} (payment_token : option string)
  (k : float -> M Node A) (w : World Node) :
  or_null payment_token <> NULL_ADDRESS ->
  gas_tokens_at (or_null payment_token) (db w) = [] ->
  bind (_get_token_eth_value_or_raise Node (Some (or_null payment_token))) k w =
  (Raise (InvalidPaymentToken (or_null payment_token)),
   logged (TokenLookup (or_null payment_token)) w).
Proof.
  intros Hnull Hrows. apply bind_Raise.
  rewrite token_value_run, or_null_idempotent.
  apply String.eqb_neq in Hnull. rewrite Hnull, Hrows. reflexivity.
Qed.

(** C2, as amended: a call of [create_safe_tx] or [create2_safe_tx] that
    raises never touches the node, and it leaves the tables as they were
    unless the exception is the persistence layer refusing the creation
    record, in which case the tables hold one row more than before, the
    wallet stub written just before, and no creation record.  A payment token
    that does not resolve ends the call after the token lookup alone, with
    [InvalidPaymentToken] and nothing written. *)
Theorem failed_creation_state :
  (forall s owners threshold payment_token w e w',
     create_safe_tx Node accepts self s owners threshold payment_token w = (Raise e, w') ->
     node w' = node w /\
     (e <> DatabaseError "SafeCreation" -> db w' = db w) /\
     (db w' = db w \/
      exists stub, e = DatabaseError "SafeCreation" /\
                   db w' = apply_write (InsertSafeContract stub) (db w))) /\
  (forall salt_nonce owners threshold payment_token w e w',
     create2_safe_tx Node accepts self salt_nonce owners threshold payment_token w
       = (Raise e, w') ->
     node w' = node w /\
     (e <> DatabaseError "SafeCreation2" -> db w' = db w) /\
     (db w' = db w \/
      exists stub, e = DatabaseError "SafeCreation2" /\
                   db w' = apply_write (InsertSafeContract stub) (db w))) /\
  (forall s owners threshold payment_token w,
     or_null payment_token <> NULL_ADDRESS ->
     gas_tokens_at (or_null payment_token) (db w) = [] ->
     create_safe_tx Node accepts self s owners threshold payment_token w =
     (Raise (InvalidPaymentToken (or_null payment_token)),
      logged (TokenLookup (or_null payment_token)) w)) /\
  (forall salt_nonce owners threshold payment_token w,
     or_null payment_token <> NULL_ADDRESS ->
     gas_tokens_at (or_null payment_token) (db w) = [] ->
     create2_safe_tx Node accepts self salt_nonce owners threshold payment_token w =
     (Raise (InvalidPaymentToken (or_null payment_token)),
      logged (TokenLookup (or_null payment_token)) w)).
Proof.
  split; [| split; [| split]].
  - intros s owners threshold payment_token w e w' H.
    apply create_safe_tx_outcomes in H
      as [Hnode [[Hdb _] | [(stub & He & _ & Hdb) | (tx & g & v & row & _ & Hbad & _)]]];
      try discriminate Hbad.
    + split; [exact Hnode | split; [intros _; exact Hdb | left; exact Hdb]].
    + inversion He; subst e.
      split; [exact Hnode | split; [intros Hne; contradiction |]].
      right. exists stub. split; [reflexivity | exact Hdb].
  - intros salt_nonce owners threshold payment_token w e w' H.
    apply create2_safe_tx_outcomes in H
      as [Hnode [[Hdb _] | [(stub & He & _ & Hdb) | (tx & g & v & row & _ & Hbad & _)]]];
      try discriminate Hbad.
    + split; [exact Hnode | split; [intros _; exact Hdb | left; exact Hdb]].
    + inversion He; subst e.
      split; [exact Hnode | split; [intros Hne; contradiction |]].
      right. exists stub. split; [reflexivity | exact Hdb].
  - intros s owners threshold payment_token w Hnull Hrows.
    unfold create_safe_tx. apply unresolvable_token_run; assumption.
  - intros salt_nonce owners threshold payment_token w Hnull Hrows.
    unfold create2_safe_tx. apply unresolvable_token_run; assumption.
Qed.

Lemma no_null_after_stub (stub : SafeContract.t) (d : Db) :
  no_null_payment_token d ->
  no_null_payment_token (apply_write (InsertSafeContract stub) d).
Proof. intros H. exact H. Qed.

(** C10: the record a successful [create_safe_tx] or [create2_safe_tx] returns
    is the one row it adds to its table, and its payment token is [None] when
    the builder's payment token is the zero address and the builder's token
    otherwise, so it is never the zero address; and whatever the outcome of a
    call, tables whose creation records held no zero-address payment token
    still hold none after it. *)
Theorem persisted_payment_token_never_null :
  (forall s owners threshold payment_token w row w',
     create_safe_tx Node accepts self s owners threshold payment_token w = (Ok row, w') ->
     SafeCreation.payment_token row <> Some NULL_ADDRESS /\
     safe_creations (db w') = safe_creations (db w) ++ [row] /\
     exists tx fast_gas_price eth_value,
       build_safe_creation_tx (safe_service self) (node w) s owners threshold
         fast_gas_price (or_null payment_token) eth_value
         (safe_fixed_creation_cost self) = Ok tx /\
       (SafeCreationTx.payment_token tx = NULL_ADDRESS ->
        SafeCreation.payment_token row = None) /\
       (SafeCreationTx.payment_token tx <> NULL_ADDRESS ->
        SafeCreation.payment_token row = Some (SafeCreationTx.payment_token tx))) /\
  (forall salt_nonce owners threshold payment_token w row w',
     create2_safe_tx Node accepts self salt_nonce owners threshold payment_token w
       = (Ok row, w') ->
     SafeCreation2.payment_token row <> Some NULL_ADDRESS /\
     safe_creations2 (db w') = safe_creations2 (db w) ++ [row] /\
     exists tx fast_gas_price eth_value,
       build_safe_create2_tx (safe_service self) (node w) salt_nonce owners threshold
         fast_gas_price (or_null payment_token) eth_value
         (safe_fixed_creation_cost self) = Ok tx /\
       (SafeCreate2Tx.payment_token tx = NULL_ADDRESS ->
        SafeCreation2.payment_token row = None) /\
       (SafeCreate2Tx.payment_token tx <> NULL_ADDRESS ->
        SafeCreation2.payment_token row = Some (SafeCreate2Tx.payment_token tx))) /\
  (forall s owners threshold payment_token w,
     no_null_payment_token (db w) ->
     no_null_payment_token
       (db (snd (create_safe_tx Node accepts self s owners threshold payment_token w)))) /\
  (forall salt_nonce owners threshold payment_token w,
     no_null_payment_token (db w) ->
     no_null_payment_token
       (db (snd (create2_safe_tx Node accepts self salt_nonce owners threshold
                   payment_token w)))).
Proof.
  split; [| split; [| split]].
  - intros s owners threshold payment_token w row w' H.
    apply create_safe_tx_outcomes in H
      as [_ [[_ [e Hbad]] | [(stub & Hbad & _) | (tx & g & v & row' & Htx & Hok & _ & Htok & Hdb)]]];
      try discriminate Hbad.
    inversion Hok; subst row'. clear Hok.
    split; [rewrite Htok; apply stored_payment_token_not_null |].
    split; [rewrite Hdb; reflexivity |].
    exists tx, g, v. split; [exact Htx |].
    rewrite Htok. apply stored_payment_token_cases.
  - intros salt_nonce owners threshold payment_token w row w' H.
    apply create2_safe_tx_outcomes in H
      as [_ [[_ [e Hbad]] | [(stub & Hbad & _) | (tx & g & v & row' & Htx & Hok & _ & Htok & Hdb)]]];
      try discriminate Hbad.
    inversion Hok; subst row'. clear Hok.
    split; [rewrite Htok; apply stored_payment_token_not_null |].
    split; [rewrite Hdb; reflexivity |].
    exists tx, g, v. split; [exact Htx |].
    rewrite Htok. apply stored_payment_token_cases.
  - intros s owners threshold payment_token w Hinv.
    destruct (create_safe_tx Node accepts self s owners threshold payment_token w)
      as [r w'] eqn:H. simpl.
    apply create_safe_tx_outcomes in H
      as [_ [[Hdb _] | [(stub & _ & _ & Hdb) | (tx & g & v & row & _ & _ & _ & Htok & Hdb)]]];
      rewrite Hdb.
    + exact Hinv.
    + apply no_null_after_stub. exact Hinv.
    + destruct Hinv as [H1 H2]. split; [| exact H2]. simpl.
      apply Forall_app. split; [exact H1 |].
      constructor; [| constructor].
      rewrite Htok. apply stored_payment_token_not_null.
  - intros salt_nonce owners threshold payment_token w Hinv.
    destruct (create2_safe_tx Node accepts self salt_nonce owners threshold payment_token w)
      as [r w'] eqn:H. simpl.
    apply create2_safe_tx_outcomes in H
      as [_ [[Hdb _] | [(stub & _ & _ & Hdb) | (tx & g & v & row & _ & _ & _ & Htok & Hdb)]]];
      rewrite Hdb.
    + exact Hinv.
    + apply no_null_after_stub. exact Hinv.
    + destruct Hinv as [H1 H2]. split; [exact H1 |]. simpl.
      apply Forall_app. split; [exact H2 |].
      constructor; [| constructor].
      rewrite Htok. apply stored_payment_token_not_null.
Qed.

End Creation.

(** The amended statement on a call with a token that is not registered. *)
Lemma failed_creation_state_witness :
  create_safe_tx Scenario.Node Scenario.accepts_all Scenario.service 5
    [Scenario.owner_1] 1 (Some Scenario.unknown_token) Scenario.empty_world =
  (Raise (InvalidPaymentToken Scenario.unknown_token),
   logged (TokenLookup Scenario.unknown_token) Scenario.empty_world).
Proof.
  apply (proj1 (proj2 (proj2
           (failed_creation_state Scenario.Node Scenario.accepts_all Scenario.service)))
           5 [Scenario.owner_1] 1 (Some Scenario.unknown_token) Scenario.empty_world).
  - discriminate.
  - reflexivity.
Defined.

(** C2, as stated, fails: on a persistence layer that takes the wallet stub
    and refuses the creation record, [create_safe_tx] raises and the tables
    are not what they were; they hold the stub of the new wallet and no
    creation record for it. *)
Lemma failed_creation_leaves_orphan_stub :
  let run :=
    create_safe_tx Scenario.Node Scenario.records_rejected Scenario.service 5
      [Scenario.owner_1] 1 None Scenario.empty_world in
  fst run = Raise (DatabaseError "SafeCreation") /\
  db (snd run) <> db Scenario.empty_world /\
  safe_contracts (db (snd run)) = [SafeContract.mk Scenario.safe_1 Scenario.master] /\
  safe_creations (db (snd run)) = [].
Proof.
  vm_compute. repeat split. intros H. discriminate H.
Qed.

(** The statement on a creation paid in ether and on one paid in a token. *)
Lemma persisted_payment_token_never_null_witness :
  no_null_payment_token
    (db (snd (create_safe_tx Scenario.Node Scenario.accepts_all Scenario.service 5
                [Scenario.owner_1] 1 None Scenario.empty_world))) /\
  no_null_payment_token
    (db (snd (create2_safe_tx Scenario.Node Scenario.accepts_all Scenario.service 7
                [Scenario.owner_1] 1 (Some Scenario.gas_token_1) Scenario.empty_world))).
Proof.
  split.
  - apply (proj1 (proj2 (proj2
             (persisted_payment_token_never_null Scenario.Node Scenario.accepts_all
                Scenario.service)))).
    split; constructor.
  - apply (proj2 (proj2 (proj2
             (persisted_payment_token_never_null Scenario.Node Scenario.accepts_all
                Scenario.service)))).
    split; constructor.
Defined.

(** The record written for a creation paid in ether holds no payment token,
    and the one for a creation paid in a registered token holds that token. *)
Example ether_creation_stores_None :
  fst (create_safe_tx Scenario.Node Scenario.accepts_all Scenario.service 5
         [Scenario.owner_1] 1 (Some NULL_ADDRESS) Scenario.empty_world) =
  Ok (SafeCreation.mk "0xde9107e4" Scenario.safe_1 Scenario.master "0xf00de4"
        [Scenario.owner_1] 1 42000 "01ab" 21000 2 None 0 27 1 5 [] []).
Proof. reflexivity. Qed.

Example token_creation_stores_token :
  SafeCreation2.payment_token (Scenario.salted_record) = None /\
  match fst (create2_safe_tx Scenario.Node Scenario.accepts_all Scenario.service 7
               [Scenario.owner_1] 1 (Some Scenario.gas_token_1) Scenario.empty_world) with
  | Ok row => SafeCreation2.payment_token row = Some Scenario.gas_token_1
  | Raise _ => False
  end.
Proof. split; reflexivity. Qed.

(** ** Deployment of a salted wallet *)

Section Deployment.
Variable Node : Type.
Variable accepts : Db -> write -> bool.
Variable self : SafeCreationService Node.

Lemma record_lookup_run (safe_address : string) (w : World Node) :
  SafeCreation2_objects_get Node safe_address w =
  (objects_get "SafeCreation2"
     (fun row => String.eqb (SafeCreation2.safe row) safe_address)
     (safe_creations2 (db w)),
   logged (RecordLookup safe_address) w).
Proof. reflexivity. Qed.

Lemma deploy_calls_app (t u : list event) :
  deploy_calls (t ++ u) = (deploy_calls t + deploy_calls u)%nat.
Proof. unfold deploy_calls. rewrite filter_app, length_app. reflexivity. Qed.

Lemma tx_hash_writes_app (safe : string) (t u : list event) :
  tx_hash_writes safe (t ++ u) = (tx_hash_writes safe t + tx_hash_writes safe u)%nat.
Proof. unfold tx_hash_writes. rewrite filter_app, length_app. reflexivity. Qed.

(** The run of [deploy_create2_safe_tx], step by step. *)
Lemma deploy_create2_safe_tx_run (safe_address : string) (w : World Node) :
  deploy_create2_safe_tx Node accepts self safe_address w =
  match objects_get "SafeCreation2"
          (fun row => String.eqb (SafeCreation2.safe row) safe_address)
          (safe_creations2 (db w)) with
  | Raise e => (Raise e, logged (RecordLookup safe_address) w)
  | Ok row =>
      let answer :=
        deploy_proxy_contract_with_nonce (safe_service self) (node w)
          (SafeCreation2.salt_nonce row) (SafeCreation2.setup_data row)
          (SafeCreation2.gas_estimated row) (SafeCreation2.gas_price_estimated row)
          (safe_funder_private_key self) in
      let called :=
        trace w ++ [RecordLookup safe_address] ++
        [DeployCall (SafeCreation2.salt_nonce row) (SafeCreation2.setup_data row)
           (SafeCreation2.gas_estimated row) (SafeCreation2.gas_price_estimated row)] in
      match fst answer with
      | Raise e => (Raise e, mkWorld (db w) (snd answer) called)
      | Ok (tx_hash, _) =>
          let saved := SafeCreation2.set_tx_hash tx_hash row in
          if accepts (db w) (SaveSafeCreation2 saved)
          then (Ok tx_hash,
                mkWorld (apply_write (SaveSafeCreation2 saved) (db w)) (snd answer)
                        (called ++ [Written (SaveSafeCreation2 saved)]))
          else (Raise (DatabaseError "SafeCreation2"),
                mkWorld (db w) (snd answer) called)
      end
  end.
Proof.
  unfold deploy_create2_safe_tx, bind at 1. rewrite record_lookup_run.
  destruct (objects_get _ _ _) as [row | e]; [| reflexivity].
  unfold safe_service_deploy, bind, emit, ret, perform. simpl.
  destruct (deploy_proxy_contract_with_nonce (safe_service self) (node w)
              (SafeCreation2.salt_nonce row) (SafeCreation2.setup_data row)
              (SafeCreation2.gas_estimated row) (SafeCreation2.gas_price_estimated row)
              (safe_funder_private_key self)) as [[[tx_hash proxy] | e] node'];
    simpl.
  - destruct (accepts (db w) (SaveSafeCreation2 (SafeCreation2.set_tx_hash tx_hash row)));
      simpl; rewrite <- !app_assoc; reflexivity.
  - rewrite <- !app_assoc. reflexivity.
Qed.

(** C7, as amended: [deploy_create2_safe_tx] looks the record of the address
    up first and, when the lookup raises, raises the same exception with the
    node and the tables untouched and no deployment handed to the node.  With
    the record found it hands one deployment to the node, built from the
    stored salt nonce, setup data and gas estimates, whatever transaction
    hash the record already holds; when the node answers with a hash and the
    persistence layer takes the save, the call returns that hash after
    exactly one save, which puts the hash into the record; when the node or
    the save raises, the record is left as it was. *)
Theorem deploy_create2_safe_tx_effects (safe_address : string) (w : World Node) :
  let run := deploy_create2_safe_tx Node accepts self safe_address w in
  let found :=
    objects_get "SafeCreation2"
      (fun row => String.eqb (SafeCreation2.safe row) safe_address)
      (safe_creations2 (db w)) in
  (forall e, found = Raise e ->
     run = (Raise e, logged (RecordLookup safe_address) w) /\
     deploy_calls (trace (snd run)) = deploy_calls (trace w)) /\
  (forall row, found = Ok row ->
     let call :=
       DeployCall (SafeCreation2.salt_nonce row) (SafeCreation2.setup_data row)
         (SafeCreation2.gas_estimated row) (SafeCreation2.gas_price_estimated row) in
     let answer :=
       deploy_proxy_contract_with_nonce (safe_service self) (node w)
         (SafeCreation2.salt_nonce row) (SafeCreation2.setup_data row)
         (SafeCreation2.gas_estimated row) (SafeCreation2.gas_price_estimated row)
         (safe_funder_private_key self) in
     let called := trace w ++ [RecordLookup safe_address] ++ [call] in
     deploy_calls (trace (snd run)) = S (deploy_calls (trace w)) /\
     match fst answer with
     | Raise e => run = (Raise e, mkWorld (db w) (snd answer) called)
     | Ok (tx_hash, _) =>
         let saved := SafeCreation2.set_tx_hash tx_hash row in
         if accepts (db w) (SaveSafeCreation2 saved)
         then run = (Ok tx_hash,
                     mkWorld (apply_write (SaveSafeCreation2 saved) (db w)) (snd answer)
                             (called ++ [Written (SaveSafeCreation2 saved)])) /\
              tx_hash_writes (SafeCreation2.safe row) (trace (snd run)) =
                S (tx_hash_writes (SafeCreation2.safe row) (trace w))
         else run = (Raise (DatabaseError "SafeCreation2"),
                     mkWorld (db w) (snd answer) called)
     end).
Proof.
  cbv zeta. rewrite deploy_create2_safe_tx_run. split.
  - intros e Hfound. rewrite Hfound. simpl. split; [reflexivity |].
    rewrite deploy_calls_app. simpl. apply Nat.add_0_r.
  - intros row Hfound. rewrite Hfound. cbv zeta.
    destruct (deploy_proxy_contract_with_nonce (safe_service self) (node w)
                (SafeCreation2.salt_nonce row) (SafeCreation2.setup_data row)
                (SafeCreation2.gas_estimated row) (SafeCreation2.gas_price_estimated row)
                (safe_funder_private_key self)) as [[[tx_hash proxy] | e] node'];
      simpl.
    + destruct (accepts (db w) (SaveSafeCreation2 (SafeCreation2.set_tx_hash tx_hash row)));
        simpl.
      * split; [| split; [reflexivity |]].
        -- rewrite !deploy_calls_app. simpl. rewrite Nat.add_0_r. apply Nat.add_1_r.
        -- rewrite !tx_hash_writes_app. unfold tx_hash_writes at 2 3. cbn [filter].
           change (SafeCreation2.safe (SafeCreation2.set_tx_hash tx_hash row))
             with (SafeCreation2.safe row).
           rewrite String.eqb_refl. simpl. rewrite Nat.add_0_r. apply Nat.add_1_r.
      * split; [| reflexivity].
        rewrite !deploy_calls_app. simpl. apply Nat.add_1_r.
    + split; [| reflexivity].
      rewrite !deploy_calls_app. simpl. apply Nat.add_1_r.
Qed.

End Deployment.

(** The amended statement on an address with no record: nothing is handed
    to the node. *)
Lemma deploy_create2_safe_tx_effects_witness :
  deploy_create2_safe_tx Scenario.Node Scenario.accepts_all Scenario.service
    Scenario.safe_1 Scenario.empty_world =
  (Raise (DoesNotExist "SafeCreation2"),
   logged (RecordLookup Scenario.safe_1) Scenario.empty_world).
Proof.
  apply (proj1 (deploy_create2_safe_tx_effects Scenario.Node Scenario.accepts_all
                  Scenario.service Scenario.safe_1 Scenario.empty_world)
           (DoesNotExist "SafeCreation2")).
  reflexivity.
Defined.

(** C7, as stated, fails: two calls in a row for the same wallet both return
    a hash; the node is handed two deployments and the record is saved twice,
    the hash of the second call replacing the hash of the first. *)
Lemma second_deployment_is_recorded_again :
  let first :=
    deploy_create2_safe_tx Scenario.Node Scenario.accepts_all Scenario.service
      Scenario.safe_1 Scenario.world_with_record in
  let second :=
    deploy_create2_safe_tx Scenario.Node Scenario.accepts_all Scenario.service
      Scenario.safe_1 (snd first) in
  fst first = Ok [Byte.x00] /\
  fst second = Ok [Byte.x01] /\
  deploy_calls (trace (snd second)) = 2%nat /\
  ~ (tx_hash_writes Scenario.safe_1 (trace (snd second)) <= 1)%nat /\
  map SafeCreation2.tx_hash (safe_creations2 (db (snd first))) = [Some [Byte.x00]] /\
  map SafeCreation2.tx_hash (safe_creations2 (db (snd second))) = [Some [Byte.x01]].
Proof.
  vm_compute. repeat split. intros H. inversion H as [| n H1]. inversion H1.
Qed.

(** ** Reading the state of a wallet *)

Section WalletInfo.
Variable Node : Type.
Variable self : SafeCreationService Node.

Lemma chain_read_run {A : Type} (what : attribute)
  (read : SafeService Node -> Node -> string -> result A) (address : string)
  (w : World Node) :
  chain_read Node self what read address w =
  (read (safe_service self) (node w) address, logged (ChainRead what address) w).
Proof. reflexivity. Qed.

(** The run of [retrieve_safe_info]: the reads are made one after the other
    on the node as it is, and the first that raises ends the call. *)
Lemma retrieve_safe_info_run (address : string) (w : World Node) :
  retrieve_safe_info Node self address w =
  let service := safe_service self in
  let after (k : nat) := mkWorld (db w) (node w) (trace w ++ firstn k (reads_of address)) in
  match retrieve_nonce service (node w) address with
  | Raise e => (Raise e, after 1%nat)
  | Ok nonce =>
  match retrieve_threshold service (node w) address with
  | Raise e => (Raise e, after 2%nat)
  | Ok threshold =>
  match retrieve_owners service (node w) address with
  | Raise e => (Raise e, after 3%nat)
  | Ok owners =>
  match retrieve_master_copy_address service (node w) address with
  | Raise e => (Raise e, after 4%nat)
  | Ok master_copy =>
  match retrieve_version service (node w) address with
  | Raise e => (Raise e, after 5%nat)
  | Ok version =>
      (Ok (SafeInfo.mk address nonce threshold owners master_copy version), after 5%nat)
  end end end end end.
Proof.
  unfold retrieve_safe_info. cbv zeta.
  unfold bind at 1. rewrite chain_read_run.
  destruct (retrieve_nonce (safe_service self) (node w) address) as [nonce | e];
    [| reflexivity].
  unfold bind at 1. rewrite chain_read_run. cbn [node logged].
  destruct (retrieve_threshold (safe_service self) (node w) address) as [threshold | e];
    [| unfold logged; cbn; rewrite <- app_assoc; reflexivity].
  unfold bind at 1. rewrite chain_read_run. cbn [node logged].
  destruct (retrieve_owners (safe_service self) (node w) address) as [owners | e];
    [| unfold logged; cbn; rewrite <- !app_assoc; reflexivity].
  unfold bind at 1. rewrite chain_read_run. cbn [node logged].
  destruct (retrieve_master_copy_address (safe_service self) (node w) address)
    as [master_copy | e];
    [| unfold logged; cbn; rewrite <- !app_assoc; reflexivity].
  unfold bind at 1. rewrite chain_read_run. cbn [node logged].
  destruct (retrieve_version (safe_service self) (node w) address) as [version | e];
    unfold logged, ret; cbn; rewrite <- !app_assoc; reflexivity.
Qed.

(** C8, as amended: [retrieve_safe_info] changes neither the tables nor the
    node.  When the five reads (nonce, threshold, owners, master copy,
    version) of the address all answer on the current node, it returns the
    [SafeInfo] made of the address and the five answers after exactly those
    five reads, in that order.  When it raises, the exception is the very one
    a read answered with, every read before that one answered, and the reads
    after it were not made. *)
Theorem retrieve_safe_info_reads (address : string) (w : World Node) :
  let run := retrieve_safe_info Node self address w in
  let service := safe_service self in
  (db (snd run) = db w /\ node (snd run) = node w) /\
  (forall nonce threshold owners master_copy version,
     retrieve_nonce service (node w) address = Ok nonce ->
     retrieve_threshold service (node w) address = Ok threshold ->
     retrieve_owners service (node w) address = Ok owners ->
     retrieve_master_copy_address service (node w) address = Ok master_copy ->
     retrieve_version service (node w) address = Ok version ->
     run = (Ok (SafeInfo.mk address nonce threshold owners master_copy version),
            mkWorld (db w) (node w) (trace w ++ reads_of address))) /\
  (forall e, fst run = Raise e ->
     exists k what,
       nth_error attributes k = Some what /\
       read_failure service (node w) address what = Some e /\
       (forall earlier, In earlier (firstn k attributes) ->
                        read_failure service (node w) address earlier = None) /\
       trace (snd run) = trace w ++ firstn (S k) (reads_of address)).
Proof.
  cbv zeta. rewrite retrieve_safe_info_run. cbv zeta. split; [| split].
  - destruct (retrieve_nonce _ _ _); [| split; reflexivity].
    destruct (retrieve_threshold _ _ _); [| split; reflexivity].
    destruct (retrieve_owners _ _ _); [| split; reflexivity].
    destruct (retrieve_master_copy_address _ _ _); [| split; reflexivity].
    destruct (retrieve_version _ _ _); split; reflexivity.
  - intros nonce threshold owners master_copy version H1 H2 H3 H4 H5.
    rewrite H1, H2, H3, H4, H5. reflexivity.
  - intros e.
    destruct (retrieve_nonce (safe_service self) (node w) address) as [nonce | e1] eqn:H1.
    2:{ intros H. inversion H; subst. exists 0%nat, Nonce.
        simpl. rewrite H1. repeat split. intros earlier []. }
    destruct (retrieve_threshold (safe_service self) (node w) address)
      as [threshold | e2] eqn:H2.
    2:{ intros H. inversion H; subst. exists 1%nat, Threshold.
        simpl. rewrite H2. repeat split.
        intros earlier [<- | []]. simpl. rewrite H1. reflexivity. }
    destruct (retrieve_owners (safe_service self) (node w) address) as [owners | e3] eqn:H3.
    2:{ intros H. inversion H; subst. exists 2%nat, Owners.
        simpl. rewrite H3. repeat split.
        intros earlier [<- | [<- | []]]; simpl; [rewrite H1 | rewrite H2]; reflexivity. }
    destruct (retrieve_master_copy_address (safe_service self) (node w) address)
      as [master_copy | e4] eqn:H4.
    2:{ intros H. inversion H; subst. exists 3%nat, MasterCopy.
        simpl. rewrite H4. repeat split.
        intros earlier [<- | [<- | [<- | []]]]; simpl;
          [rewrite H1 | rewrite H2 | rewrite H3]; reflexivity. }
    destruct (retrieve_version (safe_service self) (node w) address) as [version | e5] eqn:H5.
    + intros H. discriminate H.
    + intros H. inversion H; subst. exists 4%nat, Version.
      simpl. rewrite H5. repeat split.
      intros earlier [<- | [<- | [<- | [<- | []]]]]; simpl;
        [rewrite H1 | rewrite H2 | rewrite H3 | rewrite H4]; reflexivity.
Qed.

End WalletInfo.

(** The amended statement on a node that answers every read. *)
Lemma retrieve_safe_info_reads_witness :
  retrieve_safe_info Scenario.Node Scenario.service Scenario.safe_1 Scenario.empty_world =
  (Ok (SafeInfo.mk Scenario.safe_1 0 2 [Scenario.owner_1; Scenario.owner_2]
         Scenario.master "1.0.0"),
   mkWorld (db Scenario.empty_world) Scenario.healthy_node (reads_of Scenario.safe_1)).
Proof.
  apply (proj1 (proj2 (retrieve_safe_info_reads Scenario.Node Scenario.service
                         Scenario.safe_1 Scenario.empty_world)));
    reflexivity.
Defined.

(** C8, as stated, fails: on a node whose nonce read fails the call makes one
    read, not five, and the exception it raises is the one it raises on a
    node whose version read fails, so it does not tell which read failed. *)
Lemma failed_read_is_not_named :
  let early :=
    retrieve_safe_info Scenario.Node Scenario.service Scenario.safe_1
      (mkWorld (db Scenario.empty_world) Scenario.nonce_read_fails []) in
  let late :=
    retrieve_safe_info Scenario.Node Scenario.service Scenario.safe_1
      (mkWorld (db Scenario.empty_world) Scenario.version_read_fails []) in
  fst early = Raise Scenario.rpc_error /\
  fst late = fst early /\
  trace (snd early) = [ChainRead Nonce Scenario.safe_1] /\
  length (trace (snd early)) <> 5%nat /\
  trace (snd late) = reads_of Scenario.safe_1.
Proof.
  vm_compute. repeat split. intros H. discriminate H.
Qed.

(** ** Packed signatures *)

Module SignatureFacts.
Import Signatures.

Lemma Z_of_byte_of_Z (z : Z) : Z_of_byte (byte_of_Z z) = z mod 256.
Proof.
  unfold Z_of_byte, byte_of_Z.
  assert (Hrange : 0 <= z mod 256 < 256) by (apply Z.mod_pos_bound; lia).
  destruct (Byte.of_N (Z.to_N (z mod 256))) as [b |] eqn:E.
  - apply Byte.to_of_N in E. rewrite E. apply Z2N.id. lia.
  - apply Byte.of_N_None_iff in E. lia.
Qed.

Lemma digits_be_length (width : nat) (n : Z) : length (digits_be width n) = width.
Proof.
  revert n. induction width as [| width IH]; intros n; simpl.
  - reflexivity.
  - rewrite length_app, IH. simpl. lia.
Qed.

Lemma from_bytes_be_snoc (bs : bytes) (b : Byte.byte) :
  from_bytes_be (bs ++ [b]) = from_bytes_be bs * 256 + Z_of_byte b.
Proof. unfold from_bytes_be. rewrite fold_left_app. reflexivity. Qed.

Lemma from_bytes_be_digits (width : nat) (n : Z) :
  from_bytes_be (digits_be width n) = n mod 256 ^ Z.of_nat width.
Proof.
  revert n. induction width as [| width IH]; intros n.
  - simpl. rewrite Z.mod_1_r. reflexivity.
  - cbn [digits_be]. rewrite from_bytes_be_snoc, IH, Z_of_byte_of_Z.
    rewrite Nat2Z.inj_succ, Z.pow_succ_r by lia.
    rewrite (Z.rem_mul_r n 256 (256 ^ Z.of_nat width)) by lia. lia.
Qed.

Lemma to_bytes_be_Some (width : nat) (n : Z) (bs : bytes) :
  to_bytes_be width n = Some bs ->
  bs = digits_be width n /\ 0 <= n < 256 ^ Z.of_nat width.
Proof.
  unfold to_bytes_be.
  destruct ((0 <=? n) && (n <? 256 ^ Z.of_nat width)) eqn:E; [| discriminate].
  apply andb_true_iff in E as [H0 H1].
  apply Z.leb_le in H0. apply Z.ltb_lt in H1.
  intros H. inversion H. split; [reflexivity | lia].
Qed.

Lemma to_bytes_be_fits (width : nat) (n : Z) :
  0 <= n < 256 ^ Z.of_nat width -> to_bytes_be width n = Some (digits_be width n).
Proof.
  intros [H0 H1]. unfold to_bytes_be.
  apply Z.leb_le in H0. apply Z.ltb_lt in H1. rewrite H0, H1. reflexivity.
Qed.

(** A fixed-width field has its width and reads back as the number. *)
Lemma to_bytes_be_round_trip (width : nat) (n : Z) (bs : bytes) :
  to_bytes_be width n = Some bs -> length bs = width /\ from_bytes_be bs = n.
Proof.
  intros H. apply to_bytes_be_Some in H as [-> Hrange]. split.
  - apply digits_be_length.
  - rewrite from_bytes_be_digits. apply Z.mod_small. exact Hrange.
Qed.

Lemma slice_middle (before field after : bytes) (start len : nat) :
  length before = start -> length field = len ->
  slice start len (before ++ field ++ after) = field.
Proof.
  intros <- <-.
  unfold slice. rewrite skipn_app, skipn_all, Nat.sub_diag. simpl.
  rewrite firstn_app, firstn_all, Nat.sub_diag. simpl. apply app_nil_r.
Qed.

Lemma slice_past (front rest : bytes) (start len : nat) :
  slice (length front + start) len (front ++ rest) = slice start len rest.
Proof.
  unfold slice. rewrite skipn_app.
  rewrite skipn_all2 by lia.
  replace (length front + start - length front)%nat with start by lia.
  reflexivity.
Qed.

Lemma signature_to_bytes_Some (v r s : Z) (packed : bytes) :
  signature_to_bytes (v, r, s) = Some packed ->
  exists rb sb vb,
    to_bytes_be 32 r = Some rb /\ to_bytes_be 32 s = Some sb /\
    to_bytes_be 1 v = Some vb /\ packed = rb ++ sb ++ vb /\
    length rb = 32%nat /\ length sb = 32%nat /\ length vb = 1%nat.
Proof.
  unfold signature_to_bytes.
  destruct (to_bytes_be 32 r) as [rb |] eqn:Hr; [| discriminate].
  destruct (to_bytes_be 32 s) as [sb |] eqn:Hs; [| discriminate].
  destruct (to_bytes_be 1 v) as [vb |] eqn:Hv; [| discriminate].
  intros H. inversion H. exists rb, sb, vb.
  apply to_bytes_be_round_trip in Hr as Hr'.
  apply to_bytes_be_round_trip in Hs as Hs'.
  apply to_bytes_be_round_trip in Hv as Hv'.
  repeat split; try reflexivity; tauto.
Qed.

Lemma signature_to_bytes_length (vrs : Z * Z * Z) (packed : bytes) :
  signature_to_bytes vrs = Some packed -> length packed = 65%nat.
Proof.
  destruct vrs as [[v r] s]. intros H.
  apply signature_to_bytes_Some in H
    as (rb & sb & vb & _ & _ & _ & -> & Lr & Ls & Lv).
  rewrite !length_app. lia.
Qed.

Lemma signatures_to_bytes_length (signatures : list (Z * Z * Z)) (packed : bytes) :
  signatures_to_bytes signatures = Some packed ->
  length packed = (65 * length signatures)%nat.
Proof.
  revert packed. induction signatures as [| vrs rest IH]; intros packed; simpl.
  - intros H. inversion H. reflexivity.
  - destruct (signature_to_bytes vrs) as [one |] eqn:Hone; [| discriminate].
    destruct (signatures_to_bytes rest) as [tail |] eqn:Htail; [| discriminate].
    intros H. inversion H. rewrite length_app.
    rewrite (signature_to_bytes_length _ _ Hone), (IH tail eq_refl). lia.
Qed.

(** Where the fields of the signature at position [i] lie in the packed
    bytes. *)
Lemma signatures_to_bytes_fields (signatures : list (Z * Z * Z)) :
  forall (packed : bytes) (i : nat) (v r s : Z),
    signatures_to_bytes signatures = Some packed ->
    nth_error signatures i = Some (v, r, s) ->
    to_bytes_be 32 r = Some (slice (65 * i) 32 packed) /\
    to_bytes_be 32 s = Some (slice (65 * i + 32) 32 packed) /\
    to_bytes_be 1 v = Some (slice (65 * i + 64) 1 packed).
Proof.
  induction signatures as [| vrs rest IH]; intros packed i v r s Hpacked Hnth.
  - destruct i; discriminate Hnth.
  - simpl in Hpacked.
    destruct (signature_to_bytes vrs) as [one |] eqn:Hone; [| discriminate].
    destruct (signatures_to_bytes rest) as [tail |] eqn:Htail; [| discriminate].
    inversion Hpacked; subst packed. clear Hpacked.
    destruct i as [| i].
    + simpl in Hnth. inversion Hnth; subst vrs. clear Hnth.
      apply signature_to_bytes_Some in Hone
        as (rb & sb & vb & Hr & Hs & Hv & -> & Lr & Ls & Lv).
      rewrite Hr, Hs, Hv. repeat split; f_equal; symmetry.
      * rewrite <- !app_assoc.
        apply (slice_middle [] rb (sb ++ vb ++ tail)); [reflexivity | exact Lr].
      * rewrite <- !app_assoc.
        apply (slice_middle rb sb (vb ++ tail)); [lia | exact Ls].
      * replace ((rb ++ sb ++ vb) ++ tail) with ((rb ++ sb) ++ vb ++ tail)
          by (rewrite <- !app_assoc; reflexivity).
        apply slice_middle; [rewrite length_app; lia | exact Lv].
    + simpl in Hnth.
      apply signature_to_bytes_length in Hone as Lone.
      destruct (IH tail i v r s eq_refl Hnth) as (Hr & Hs & Hv).
      replace (65 * S i)%nat with (length one + 65 * i)%nat by lia.
      rewrite <- !Nat.add_assoc, !slice_past.
      repeat split; assumption.
Qed.

Lemma signatures_to_bytes_total (signatures : list (Z * Z * Z)) :
  Forall well_formed signatures ->
  exists packed, signatures_to_bytes signatures = Some packed.
Proof.
  induction 1 as [| [[v r] s] rest Hwf _ [tail Htail]]; simpl.
  - exists []. reflexivity.
  - destruct Hwf as (Hv & Hr & Hs).
    rewrite (to_bytes_be_fits 32 r), (to_bytes_be_fits 32 s), (to_bytes_be_fits 1 v), Htail
      by (simpl; lia).
    eexists. reflexivity.
Qed.

(** C9: for every list of (v, r, s) triples, the bytes [signatures_to_bytes]
    produces are 65 for each triple; the triple at position [i] of the list
    occupies the bytes from offset [65 * i]: r as a 32-byte big-endian field,
    then s as a 32-byte field, then v as one byte, each reading back as the
    number given; and bytes are produced whenever every triple is a
    signature, with v below 2^8 and r and s below 2^256. *)
Theorem signatures_to_bytes_layout (signatures : list (Z * Z * Z)) :
  (forall packed,
     signatures_to_bytes signatures = Some packed ->
     length packed = (65 * length signatures)%nat /\
     forall i v r s,
       nth_error signatures i = Some (v, r, s) ->
       to_bytes_be 32 r = Some (slice (65 * i) 32 packed) /\
       to_bytes_be 32 s = Some (slice (65 * i + 32) 32 packed) /\
       to_bytes_be 1 v = Some (slice (65 * i + 64) 1 packed) /\
       from_bytes_be (slice (65 * i) 32 packed) = r /\
       from_bytes_be (slice (65 * i + 32) 32 packed) = s /\
       from_bytes_be (slice (65 * i + 64) 1 packed) = v) /\
  (Forall well_formed signatures ->
   exists packed, signatures_to_bytes signatures = Some packed).
Proof.
  split; [| apply signatures_to_bytes_total].
  intros packed Hpacked. split; [apply signatures_to_bytes_length; exact Hpacked |].
  intros i v r s Hnth.
  destruct (signatures_to_bytes_fields signatures packed i v r s Hpacked Hnth)
    as (Hr & Hs & Hv).
  repeat split; try assumption.
  - apply (to_bytes_be_round_trip 32 r). exact Hr.
  - apply (to_bytes_be_round_trip 32 s). exact Hs.
  - apply (to_bytes_be_round_trip 1 v). exact Hv.
Qed.

End SignatureFacts.

(** The statement on the two signatures of a two-owner wallet. *)
Lemma signatures_to_bytes_layout_witness :
  exists packed,
    Signatures.signatures_to_bytes [(27, 5, 6); (28, 7, 8)] = Some packed /\
    length packed = 130%nat.
Proof.
  destruct (proj2 (SignatureFacts.signatures_to_bytes_layout [(27, 5, 6); (28, 7, 8)]))
    as [packed Hpacked].
  - repeat constructor; simpl; lia.
  - exists packed. split; [exact Hpacked |].
    apply (proj1 (SignatureFacts.signatures_to_bytes_layout [(27, 5, 6); (28, 7, 8)])
             packed Hpacked).
Defined.

(** ** The policy checks of the relay *)

Module RelayFacts.
Import TransactionService.

Section Checks.
Variable get_hash_for_safe_tx :
  string -> string -> Z -> bytes -> Z -> Z -> Z -> Z -> string -> string -> Z -> bytes.
Variable check_hash : bytes -> bytes -> list string -> bool.
Variable allowed_refund_receiver : string -> bool.
Variable gas_prices : GasPrices.t.
Variable hash_of_sent : Request -> Z -> bytes.
Variable refund_paid : Request -> Z.

(** The relay makes each of the three policy checks once, in some order. *)
Variable order : list policy_check.
Hypothesis order_complete : Permutation order policy_checks.

Local Abbreviation send :=
  (send_multisig_tx get_hash_for_safe_tx check_hash allowed_refund_receiver gas_prices
     hash_of_sent refund_paid order).
Local Abbreviation valid := (signatures_valid get_hash_for_safe_tx check_hash).
Local Abbreviation receiver_ok := (refund_receiver_valid allowed_refund_receiver).
Local Abbreviation violated := (violation allowed_refund_receiver gas_prices).
Local Abbreviation first_violated := (first_violation allowed_refund_receiver gas_prices).

Lemma every_check_is_made (check : policy_check) : In check order.
Proof.
  apply (Permutation_in check (Permutation_sym order_complete)).
  destruct check; simpl; tauto.
Qed.

Lemma first_violation_None (c : Chain) (req : Request) (checks : list policy_check) :
  first_violated c req checks = None <->
  forall check, In check checks -> violated c req check = None.
Proof.
  induction checks as [| check rest IH]; simpl.
  - split; [intros _ check [] | reflexivity].
  - destruct (violated c req check) as [e |] eqn:Hcheck; split.
    + intros H. discriminate H.
    + intros H. specialize (H check (or_introl eq_refl)). congruence.
    + intros H other [<- | Hin]; [exact Hcheck | apply IH; assumption].
    + intros H. apply IH. intros other Hin. apply H. right. exact Hin.
Qed.

Lemma first_violation_Some (c : Chain) (req : Request) (checks : list policy_check) e :
  first_violated c req checks = Some e ->
  exists check, In check checks /\ violated c req check = Some e.
Proof.
  induction checks as [| check rest IH]; simpl; [discriminate |].
  destruct (violated c req check) as [e' |] eqn:Hcheck.
  - intros H. inversion H; subst. exists check. split; [left; reflexivity | exact Hcheck].
  - intros H. destruct (IH H) as (other & Hin & Hother).
    exists other. split; [right; exact Hin | exact Hother].
Qed.

(** When one check alone is not passed, its error is the first. *)
Lemma only_violation (c : Chain) (req : Request) (check : policy_check) e :
  violated c req check = Some e ->
  (forall other, other <> check -> violated c req other = None) ->
  first_violated c req order = Some e.
Proof.
  intros Hcheck Hothers.
  destruct (first_violated c req order) as [e' |] eqn:Hfirst.
  - apply first_violation_Some in Hfirst as (found & _ & Hfound).
    destruct found, check; try congruence;
      match goal with
      | H : violated c req ?k = Some e' |- _ =>
          rewrite (Hothers k) in H by discriminate; discriminate H
      end.
  - rewrite first_violation_None in Hfirst.
    rewrite (Hfirst check (every_check_is_made check)) in Hcheck. discriminate Hcheck.
Qed.

Lemma some_violation (c : Chain) (req : Request) (check : policy_check) e :
  violated c req check = Some e ->
  exists e', first_violated c req order = Some e'.
Proof.
  intros Hcheck.
  destruct (first_violated c req order) as [e' |] eqn:Hfirst; [exists e'; reflexivity |].
  rewrite first_violation_None in Hfirst.
  rewrite (Hfirst check (every_check_is_made check)) in Hcheck. discriminate Hcheck.
Qed.

(** The run of [send_multisig_tx], check by check. *)
Lemma send_multisig_tx_run (c : Chain) (req : Request) :
  send c req =
  if gas_price req =? 0 then (Failed RefundMustBeEnabled, c)
  else
    match first_violated c req order with
    | Some e => (Failed e, c)
    | None =>
        if negb (valid c req) then (Failed InvalidSignatures, c)
        else (Sent (hash_of_sent req (nonce c (safe_address req))) req,
              execute refund_paid c req)
    end.
Proof. reflexivity. Qed.

(** A request that is refused leaves the chain as it was. *)
Lemma refused_before_broadcast (c : Chain) (req : Request) (e : error) :
  fst (send c req) = Failed e -> snd (send c req) = c.
Proof.
  rewrite send_multisig_tx_run.
  destruct (gas_price req =? 0); [reflexivity |].
  destruct (first_violated c req order); [reflexivity |].
  destruct (negb (valid c req)); [reflexivity |].
  intros H. discriminate H.
Qed.

Lemma fund_keeps_signatures_valid (c : Chain) (address : string) (amount : Z)
  (req : Request) :
  valid (fund c address amount) req = valid c req.
Proof. reflexivity. Qed.

Lemma fund_balance (c : Chain) (address : string) (amount : Z) :
  balance (fund c address amount) address = balance c address + amount.
Proof. unfold fund, update. simpl. rewrite String.eqb_refl. reflexivity. Qed.

(** One more executed transaction is one more on the nonce of its wallet, and
    nothing on the nonce of any other. *)
Lemma execute_nonce (c : Chain) (req : Request) (address : string) :
  nonce (execute refund_paid c req) address =
  if String.eqb (safe_address req) address then nonce c address + 1
  else nonce c address.
Proof.
  unfold nonce, execute. cbn [executed]. rewrite filter_app, length_app. simpl.
  destruct (String.eqb (safe_address req) address); simpl; lia.
Qed.

(** The policy checks a request passes on a chain with enough funds. *)
Lemma passes_when_funded (c : Chain) (req : Request) :
  receiver_ok req = true ->
  GasPrices.standard gas_prices <= gas_price req ->
  required_funds req <= balance c (safe_address req) ->
  first_violated c req order = None.
Proof.
  intros Hreceiver Hprice Hfunds. apply first_violation_None.
  intros check _. destruct check; simpl.
  - rewrite Hreceiver. reflexivity.
  - apply Z.ltb_ge in Hprice. rewrite Hprice. reflexivity.
  - apply Z.ltb_ge in Hfunds. rewrite Hfunds. reflexivity.
Qed.




(** When the price floor is the first of the three checks, every request
    with a gas price that is not zero and is below the standard tier gets
    [GasPriceTooLow], whatever else is wrong with it. *)
Lemma floor_checked_first (rest : list policy_check) (c : Chain) (req : Request) :
  order = GasPriceFloorCheck :: rest ->
  gas_price req <> 0 -> gas_price req < GasPrices.standard gas_prices ->
  send c req = (Failed GasPriceTooLow, c).
Proof.
  intros Horder Hnonzero Hlow. rewrite send_multisig_tx_run, Horder.
  apply Z.eqb_neq in Hnonzero. apply Z.ltb_lt in Hlow.
  rewrite Hnonzero. simpl. rewrite Hlow. reflexivity.
Qed.

End Checks.
End RelayFacts.

(** *** The calls of the test on the scripted chain *)

(** The signatures of the test verify for the request they were made for,
    and for no request with another gas price or another refund receiver. *)
Example signatures_packed_verify_once :
  TransactionService.signatures_valid Scenario.plain_hash Scenario.plain_check_hash
    Scenario.unfunded_chain (Scenario.request 1000000000 NULL_ADDRESS) = true /\
  TransactionService.signatures_valid Scenario.plain_hash Scenario.plain_check_hash
    Scenario.funded_chain (Scenario.request 0 NULL_ADDRESS) = false /\
  TransactionService.signatures_valid Scenario.plain_hash Scenario.plain_check_hash
    Scenario.funded_chain (Scenario.request 999999999 NULL_ADDRESS) = false /\
  TransactionService.signatures_valid Scenario.plain_hash Scenario.plain_check_hash
    Scenario.funded_chain (Scenario.request 1000000000 Scenario.owner_1) = false.
Proof. vm_compute. repeat split. Qed.

(** The call with a refund receiver other than the zero address (l.138-153)
    is refused for its receiver. *)
Example refused_refund_receiver :
  fst (Scenario.relay Scenario.funded_chain
         (Scenario.request 1000000000 Scenario.owner_1)) =
  TransactionService.Failed TransactionService.InvalidRefundReceiver.
Proof. vm_compute. reflexivity. Qed.




(** * Further properties of the service *)

(** ** The runs of the two creation functions *)

Section CreationRuns.
Variable Node : Type.
Variable accepts : Db -> write -> bool.
Variable self : SafeCreationService Node.

(** Where token resolution leaves the world when it returns a value. *)
Lemma token_value_Ok_world (payment_token : option string) (w : World Node) value :
  fst (_get_token_eth_value_or_raise Node (Some (or_null payment_token)) w) = Ok value ->
  _get_token_eth_value_or_raise Node (Some (or_null payment_token)) w =
  (Ok value,
   if String.eqb (or_null payment_token) NULL_ADDRESS then w
   else logged (TokenLookup (or_null payment_token)) w).
Proof.
  rewrite token_value_run, or_null_idempotent.
  destruct (String.eqb (or_null payment_token) NULL_ADDRESS).
  - simpl. intros H. inversion H. reflexivity.
  - destruct (gas_tokens_at _ _) as [| token [| token' rest]]; simpl; intros H;
      inversion H; reflexivity.
Qed.

Lemma gas_station_run (w : World Node) :
  gas_station_get_gas_prices Node self w =
  (get_gas_prices (gas_station self), logged GasStationQuery w).
Proof. reflexivity. Qed.

(** The run of [create_safe_tx] once the payment token has a value and the
    gas station has answered. *)
Lemma create_safe_tx_run s owners threshold payment_token (w : World Node) value prices :
  fst (_get_token_eth_value_or_raise Node (Some (or_null payment_token)) w) = Ok value ->
  get_gas_prices (gas_station self) = Ok prices ->
  create_safe_tx Node accepts self s owners threshold payment_token w =
  let w2 := after_lookups payment_token w in
  match build_safe_creation_tx (safe_service self) (node w) s owners threshold
          (GasPrices.fast prices) (or_null payment_token) value
          (safe_fixed_creation_cost self) with
  | Raise e => (Raise e, w2)
  | Ok tx =>
      if accepts (db w) (InsertSafeContract (stub_of tx))
      then
        let w3 := written (InsertSafeContract (stub_of tx)) w2 in
        let row := SafeCreation_of tx owners threshold in
        if accepts (db w3) (InsertSafeCreation row)
        then (Ok row, written (InsertSafeCreation row) w3)
        else (Raise (DatabaseError "SafeCreation"), w3)
      else (Raise (DatabaseError "SafeContract"), w2)
  end.
Proof.
  intros Htoken Hgas. apply token_value_Ok_world in Htoken.
  unfold create_safe_tx.
  rewrite (bind_Ok Node _ _ w value _ Htoken).
  unfold bind at 1. rewrite gas_station_run, Hgas.
  unfold after_lookups.
  destruct (String.eqb (or_null payment_token) NULL_ADDRESS);
    unfold bind at 1; cbn [node logged];
    (destruct (build_safe_creation_tx _ _ _ _ _ _ _ _ _) as [tx | e]; [| reflexivity]);
    unfold SafeContract_objects_create, SafeCreation_objects_create, bind, ret, perform, written,
      logged, stub_of, stub2_of, SafeCreation_of, SafeCreation2_of;
    cbn [db node trace SafeContract.address];
    (destruct (accepts _ (InsertSafeContract _)); [| reflexivity]);
    cbn [db node trace];
    (destruct (accepts _ _); reflexivity).
Qed.

(** The same for [create2_safe_tx]. *)
Lemma create2_safe_tx_run salt_nonce owners threshold payment_token (w : World Node)
  value prices :
  fst (_get_token_eth_value_or_raise Node (Some (or_null payment_token)) w) = Ok value ->
  get_gas_prices (gas_station self) = Ok prices ->
  create2_safe_tx Node accepts self salt_nonce owners threshold payment_token w =
  let w2 := after_lookups payment_token w in
  match build_safe_create2_tx (safe_service self) (node w) salt_nonce owners threshold
          (GasPrices.fast prices) (or_null payment_token) value
          (safe_fixed_creation_cost self) with
  | Raise e => (Raise e, w2)
  | Ok tx =>
      if accepts (db w) (InsertSafeContract (stub2_of tx))
      then
        let w3 := written (InsertSafeContract (stub2_of tx)) w2 in
        let row := SafeCreation2_of tx salt_nonce owners threshold in
        if accepts (db w3) (InsertSafeCreation2 row)
        then (Ok row, written (InsertSafeCreation2 row) w3)
        else (Raise (DatabaseError "SafeCreation2"), w3)
      else (Raise (DatabaseError "SafeContract"), w2)
  end.
Proof.
  intros Htoken Hgas. apply token_value_Ok_world in Htoken.
  unfold create2_safe_tx.
  rewrite (bind_Ok Node _ _ w value _ Htoken).
  unfold bind at 1. rewrite gas_station_run, Hgas.
  unfold after_lookups.
  destruct (String.eqb (or_null payment_token) NULL_ADDRESS);
    unfold bind at 1; cbn [node logged];
    (destruct (build_safe_create2_tx _ _ _ _ _ _ _ _ _) as [tx | e]; [| reflexivity]);
    unfold SafeContract_objects_create, SafeCreation2_objects_create, bind, ret, perform, written,
      logged, stub_of, stub2_of, SafeCreation_of, SafeCreation2_of;
    cbn [db node trace SafeContract.address];
    (destruct (accepts _ (InsertSafeContract _)); [| reflexivity]);
    cbn [db node trace];
    (destruct (accepts _ _); reflexivity).
Qed.

End CreationRuns.

(** ** Creation: the successful path and the failures of the collaborators *)

Section CreationPaths.
Variable Node : Type.
Variable accepts : Db -> write -> bool.
Variable self : SafeCreationService Node.

Lemma after_lookups_state (payment_token : option string) (w : World Node) :
  db (after_lookups payment_token w) = db w /\
  node (after_lookups payment_token w) = node w.
Proof.
  unfold after_lookups. destruct (String.eqb _ _); split; reflexivity.
Qed.

Lemma db_written (wr : write) (w : World Node) :
  db (written wr w) = apply_write wr (db w).
Proof. reflexivity. Qed.

(** X1: when the payment token has a value, the gas station answers, the
    builder returns a transaction for the fast gas price, the token, its value
    and the fixed creation cost of the service, and the persistence layer
    takes both inserts, [create_safe_tx] returns the record made of the
    builder's transaction with the owners and the threshold it was given, and
    the tables gain the wallet stub and then that record, and nothing else. *)
Theorem create_safe_tx_succeeds s owners threshold payment_token (w : World Node)
  value prices tx :
  fst (_get_token_eth_value_or_raise Node (Some (or_null payment_token)) w) = Ok value ->
  get_gas_prices (gas_station self) = Ok prices ->
  build_safe_creation_tx (safe_service self) (node w) s owners threshold
    (GasPrices.fast prices) (or_null payment_token) value
    (safe_fixed_creation_cost self) = Ok tx ->
  accepts (db w) (InsertSafeContract (stub_of tx)) = true ->
  accepts (apply_write (InsertSafeContract (stub_of tx)) (db w))
          (InsertSafeCreation (SafeCreation_of tx owners threshold)) = true ->
  create_safe_tx Node accepts self s owners threshold payment_token w =
  (Ok (SafeCreation_of tx owners threshold),
   written (InsertSafeCreation (SafeCreation_of tx owners threshold))
     (written (InsertSafeContract (stub_of tx)) (after_lookups payment_token w))) /\
  db (snd (create_safe_tx Node accepts self s owners threshold payment_token w)) =
  mkDb (tokens (db w)) (safe_contracts (db w) ++ [stub_of tx])
       (safe_creations (db w) ++ [SafeCreation_of tx owners threshold])
       (safe_creations2 (db w)).
Proof.
  intros Htoken Hgas Hbuild Hstub Hrow.
  rewrite (create_safe_tx_run Node accepts self s owners threshold payment_token w
             value prices Htoken Hgas).
  cbv zeta. rewrite Hbuild, Hstub.
  destruct (after_lookups_state payment_token w) as [Hdb _].
  rewrite db_written, Hdb, Hrow.
  split; [reflexivity |].
  cbn [snd]. rewrite !db_written, Hdb. reflexivity.
Qed.

(** X2: the same for [create2_safe_tx]: the record holds the salt nonce it
    was given and the builder's proxy factory, setup data and estimates, and
    no transaction hash yet. *)
Theorem create2_safe_tx_succeeds salt_nonce owners threshold payment_token
  (w : World Node) value prices tx :
  fst (_get_token_eth_value_or_raise Node (Some (or_null payment_token)) w) = Ok value ->
  get_gas_prices (gas_station self) = Ok prices ->
  build_safe_create2_tx (safe_service self) (node w) salt_nonce owners threshold
    (GasPrices.fast prices) (or_null payment_token) value
    (safe_fixed_creation_cost self) = Ok tx ->
  accepts (db w) (InsertSafeContract (stub2_of tx)) = true ->
  accepts (apply_write (InsertSafeContract (stub2_of tx)) (db w))
          (InsertSafeCreation2 (SafeCreation2_of tx salt_nonce owners threshold)) = true ->
  create2_safe_tx Node accepts self salt_nonce owners threshold payment_token w =
  (Ok (SafeCreation2_of tx salt_nonce owners threshold),
   written (InsertSafeCreation2 (SafeCreation2_of tx salt_nonce owners threshold))
     (written (InsertSafeContract (stub2_of tx)) (after_lookups payment_token w))) /\
  db (snd (create2_safe_tx Node accepts self salt_nonce owners threshold payment_token w)) =
  mkDb (tokens (db w)) (safe_contracts (db w) ++ [stub2_of tx])
       (safe_creations (db w))
       (safe_creations2 (db w) ++ [SafeCreation2_of tx salt_nonce owners threshold]) /\
  SafeCreation2.tx_hash (SafeCreation2_of tx salt_nonce owners threshold) = None.
Proof.
  intros Htoken Hgas Hbuild Hstub Hrow.
  rewrite (create2_safe_tx_run Node accepts self salt_nonce owners threshold
             payment_token w value prices Htoken Hgas).
  cbv zeta. rewrite Hbuild, Hstub.
  destruct (after_lookups_state payment_token w) as [Hdb _].
  rewrite db_written, Hdb, Hrow.
  split; [reflexivity |].
  split; [| reflexivity].
  cbn [snd]. rewrite !db_written, Hdb. reflexivity.
Qed.

(** The run of a creation function whose gas station raises. *)
Lemma gas_station_failure_run {A : Type} (payment_token : option string)
  (k : float -> GasPrices.t -> M Node A) (w : World Node) value e :
  fst (_get_token_eth_value_or_raise Node (Some (or_null payment_token)) w) = Ok value ->
  get_gas_prices (gas_station self) = Raise e ->
  bind (_get_token_eth_value_or_raise Node (Some (or_null payment_token)))
       (fun v => bind (gas_station_get_gas_prices Node self) (k v)) w =
  (Raise e, after_lookups payment_token w).
Proof.
  intros Htoken Hgas. apply token_value_Ok_world in Htoken.
  rewrite (bind_Ok Node _ _ w value _ Htoken).
  unfold bind. rewrite gas_station_run, Hgas. reflexivity.
Qed.

(** X3: a failure of a collaborator ends [create_safe_tx] and
    [create2_safe_tx] with the collaborator's own exception and nothing
    written: an exception of the gas station, met after the token has a
    value; an exception of the builder, met after the gas station has
    answered; and the persistence layer refusing the wallet stub, after which
    the insert of the creation record is not tried. *)
Theorem creation_collaborator_failures s owners threshold payment_token (w : World Node)
  value :
  fst (_get_token_eth_value_or_raise Node (Some (or_null payment_token)) w) = Ok value ->
  (forall e,
     get_gas_prices (gas_station self) = Raise e ->
     create_safe_tx Node accepts self s owners threshold payment_token w =
       (Raise e, after_lookups payment_token w) /\
     create2_safe_tx Node accepts self s owners threshold payment_token w =
       (Raise e, after_lookups payment_token w)) /\
  (forall prices e,
     get_gas_prices (gas_station self) = Ok prices ->
     (build_safe_creation_tx (safe_service self) (node w) s owners threshold
        (GasPrices.fast prices) (or_null payment_token) value
        (safe_fixed_creation_cost self) = Raise e ->
      create_safe_tx Node accepts self s owners threshold payment_token w =
        (Raise e, after_lookups payment_token w)) /\
     (build_safe_create2_tx (safe_service self) (node w) s owners threshold
        (GasPrices.fast prices) (or_null payment_token) value
        (safe_fixed_creation_cost self) = Raise e ->
      create2_safe_tx Node accepts self s owners threshold payment_token w =
        (Raise e, after_lookups payment_token w))) /\
  (forall prices,
     get_gas_prices (gas_station self) = Ok prices ->
     (forall tx,
        build_safe_creation_tx (safe_service self) (node w) s owners threshold
          (GasPrices.fast prices) (or_null payment_token) value
          (safe_fixed_creation_cost self) = Ok tx ->
        accepts (db w) (InsertSafeContract (stub_of tx)) = false ->
        create_safe_tx Node accepts self s owners threshold payment_token w =
          (Raise (DatabaseError "SafeContract"), after_lookups payment_token w)) /\
     (forall tx,
        build_safe_create2_tx (safe_service self) (node w) s owners threshold
          (GasPrices.fast prices) (or_null payment_token) value
          (safe_fixed_creation_cost self) = Ok tx ->
        accepts (db w) (InsertSafeContract (stub2_of tx)) = false ->
        create2_safe_tx Node accepts self s owners threshold payment_token w =
          (Raise (DatabaseError "SafeContract"), after_lookups payment_token w))).
Proof.
  intros Htoken. split; [| split].
  - intros e Hgas. split.
    + unfold create_safe_tx. cbv zeta.
      apply (gas_station_failure_run payment_token _ w value e Htoken Hgas).
    + unfold create2_safe_tx. cbv zeta.
      apply (gas_station_failure_run payment_token _ w value e Htoken Hgas).
  - intros prices e Hgas. split; intros Hbuild.
    + rewrite (create_safe_tx_run Node accepts self s owners threshold payment_token w
                 value prices Htoken Hgas).
      cbv zeta. rewrite Hbuild. reflexivity.
    + rewrite (create2_safe_tx_run Node accepts self s owners threshold payment_token w
                 value prices Htoken Hgas).
      cbv zeta. rewrite Hbuild. reflexivity.
  - intros prices Hgas. split; intros tx Hbuild Hstub.
    + rewrite (create_safe_tx_run Node accepts self s owners threshold payment_token w
                 value prices Htoken Hgas).
      cbv zeta. rewrite Hbuild, Hstub. reflexivity.
    + rewrite (create2_safe_tx_run Node accepts self s owners threshold payment_token w
                 value prices Htoken Hgas).
      cbv zeta. rewrite Hbuild, Hstub. reflexivity.
Qed.

End CreationPaths.

(** X1 on a creation paid in ether. *)
Lemma create_safe_tx_succeeds_witness :
  create_safe_tx Scenario.Node Scenario.accepts_all Scenario.service 5
    [Scenario.owner_1] 1 None Scenario.empty_world =
  (Ok (SafeCreation_of Fixtures.built_tx [Scenario.owner_1] 1),
   written (InsertSafeCreation (SafeCreation_of Fixtures.built_tx [Scenario.owner_1] 1))
     (written (InsertSafeContract (stub_of Fixtures.built_tx))
        (after_lookups None Scenario.empty_world))).
Proof.
  apply (create_safe_tx_succeeds Scenario.Node Scenario.accepts_all Scenario.service 5
           [Scenario.owner_1] 1 None Scenario.empty_world float_1_0 (GasPrices.mk 1 2)
           Fixtures.built_tx);
    reflexivity.
Defined.

(** X2 on a salted creation paid in ether. *)
Lemma create2_safe_tx_succeeds_witness :
  create2_safe_tx Scenario.Node Scenario.accepts_all Scenario.service 7
    [Scenario.owner_1] 1 None Scenario.empty_world =
  (Ok (SafeCreation2_of Fixtures.built_tx2 7 [Scenario.owner_1] 1),
   written (InsertSafeCreation2 (SafeCreation2_of Fixtures.built_tx2 7 [Scenario.owner_1] 1))
     (written (InsertSafeContract (stub2_of Fixtures.built_tx2))
        (after_lookups None Scenario.empty_world))).
Proof.
  apply (create2_safe_tx_succeeds Scenario.Node Scenario.accepts_all Scenario.service 7
           [Scenario.owner_1] 1 None Scenario.empty_world float_1_0 (GasPrices.mk 1 2)
           Fixtures.built_tx2);
    reflexivity.
Defined.

(** X3 with the gas station down, and with a database that takes no write. *)
Lemma creation_collaborator_failures_witness :
  create_safe_tx Scenario.Node Scenario.accepts_all Fixtures.station_down 5
    [Scenario.owner_1] 1 None Scenario.empty_world =
  (Raise (CollaboratorError "gas station unreachable"),
   after_lookups None Scenario.empty_world) /\
  create_safe_tx Scenario.Node Fixtures.read_only_database Scenario.service 5
    [Scenario.owner_1] 1 None Scenario.empty_world =
  (Raise (DatabaseError "SafeContract"), after_lookups None Scenario.empty_world).
Proof.
  split.
  - apply (proj1 (creation_collaborator_failures Scenario.Node Scenario.accepts_all
                    Fixtures.station_down 5 [Scenario.owner_1] 1 None
                    Scenario.empty_world float_1_0 eq_refl)
             (CollaboratorError "gas station unreachable") eq_refl).
  - apply (proj1 (proj2 (proj2
             (creation_collaborator_failures Scenario.Node Fixtures.read_only_database
                Scenario.service 5 [Scenario.owner_1] 1 None Scenario.empty_world
                float_1_0 eq_refl)) (GasPrices.mk 1 2) eq_refl) Fixtures.built_tx);
      reflexivity.
Defined.

(** ** Estimation *)

Section EstimationFacts.
Variable Node : Type.
Variable Estimate : Type.
Variable self : SafeCreationService Node.
Variable estimator : Node -> Z -> Z -> string -> float -> Z -> result Estimate.

(** The run of [estimate_safe_creation], step by step. *)
Lemma estimate_safe_creation_run (number_owners : Z) (payment_token : option string)
  (w : World Node) :
  estimate_safe_creation Node Estimate self estimator number_owners payment_token w =
  match _get_token_eth_value_or_raise Node (Some (or_null payment_token)) w with
  | (Raise e, w1) => (Raise e, w1)
  | (Ok value, w1) =>
      match get_gas_prices (gas_station self) with
      | Raise e => (Raise e, logged GasStationQuery w1)
      | Ok prices =>
          (estimator (node w1) number_owners (GasPrices.fast prices)
             (or_null payment_token) value (safe_fixed_creation_cost self),
           logged GasStationQuery w1)
      end
  end.
Proof.
  unfold estimate_safe_creation. cbv zeta. unfold bind at 1.
  destruct (_get_token_eth_value_or_raise Node (Some (or_null payment_token)) w)
    as [[value | e] w1]; [| reflexivity].
  unfold bind. rewrite gas_station_run.
  destruct (get_gas_prices (gas_station self)); reflexivity.
Qed.

(** X4: [estimate_safe_creation] never changes the tables or the node.  With
    a payment token that has a value and a gas station that answers, it
    returns what the estimator of the Safe service answers for the number of
    owners, the fast gas price, the token, its value and the fixed creation
    cost of the service.  With a token that does not resolve it raises
    [InvalidPaymentToken] after the token lookup alone, as the two creation
    functions do in the same world. *)
Theorem estimate_safe_creation_reads_only (accepts : Db -> write -> bool)
  (number_owners : Z) (payment_token : option string) (w : World Node) :
  let run :=
    estimate_safe_creation Node Estimate self estimator number_owners payment_token w in
  (db (snd run) = db w /\ node (snd run) = node w) /\
  (forall value prices,
     fst (_get_token_eth_value_or_raise Node (Some (or_null payment_token)) w)
       = Ok value ->
     get_gas_prices (gas_station self) = Ok prices ->
     run = (estimator (node w) number_owners (GasPrices.fast prices)
              (or_null payment_token) value (safe_fixed_creation_cost self),
            after_lookups payment_token w)) /\
  (or_null payment_token <> NULL_ADDRESS ->
   gas_tokens_at (or_null payment_token) (db w) = [] ->
   run = (Raise (InvalidPaymentToken (or_null payment_token)),
          logged (TokenLookup (or_null payment_token)) w) /\
   forall s owners threshold,
     fst (create_safe_tx Node accepts self s owners threshold payment_token w) =
       Raise (InvalidPaymentToken (or_null payment_token)) /\
     fst (create2_safe_tx Node accepts self s owners threshold payment_token w) =
       Raise (InvalidPaymentToken (or_null payment_token))).
Proof.
  cbv zeta. rewrite estimate_safe_creation_run. split; [| split].
  - destruct (_get_token_eth_value_or_raise Node (Some (or_null payment_token)) w)
      as [[value | e] w1] eqn:Htoken;
      apply token_value_read_only in Htoken as [Hdb Hnode].
    + destruct (get_gas_prices (gas_station self)); split; assumption.
    + split; assumption.
  - intros value prices Htoken Hgas.
    rewrite (token_value_Ok_world Node payment_token w value Htoken), Hgas.
    unfold after_lookups. destruct (String.eqb _ _); reflexivity.
  - intros Hnull Hrows.
    rewrite token_value_run, or_null_idempotent.
    apply String.eqb_neq in Hnull as Hneq. rewrite Hneq, Hrows.
    split; [reflexivity |].
    intros s owners threshold. unfold create_safe_tx, create2_safe_tx. cbv zeta.
    rewrite !(unresolvable_token_run Node payment_token _ w Hnull Hrows).
    split; reflexivity.
Qed.

End EstimationFacts.

(** X4 on the scripted estimator, for three owners paid in ether. *)
Lemma estimate_safe_creation_reads_only_witness :
  estimate_safe_creation Scenario.Node (Z * Z * Z) Scenario.service
    Fixtures.scripted_estimate 3 None Scenario.empty_world =
  (Ok (63000, 2, 126000), after_lookups None Scenario.empty_world).
Proof.
  apply (proj1 (proj2 (estimate_safe_creation_reads_only Scenario.Node (Z * Z * Z)
                         Scenario.service Fixtures.scripted_estimate
                         Scenario.accepts_all 3 None Scenario.empty_world))
           float_1_0 (GasPrices.mk 1 2));
    reflexivity.
Defined.

(** ** The token table *)

Section TokenTable.
Variable Node : Type.

Lemma no_row_at (a : string) (rows : list Token.t) :
  (forall row, In row rows -> Token.address row <> a) ->
  filter (fun row => String.eqb (Token.address row) a && Bool.eqb (Token.gas row) true)
         rows = [].
Proof.
  induction rows as [| row rest IH]; intros Hnone; simpl; [reflexivity |].
  assert (Hrow : Token.address row <> a) by (apply Hnone; left; reflexivity).
  apply String.eqb_neq in Hrow. rewrite Hrow. simpl.
  apply IH. intros row' Hin. apply Hnone. right. exact Hin.
Qed.

(** With one row per address, the lookup selects the row of the address when
    its [gas] flag is set, and nothing otherwise. *)
Lemma unique_row_at (rows : list Token.t) (token : Token.t) :
  NoDup (map Token.address rows) -> In token rows ->
  filter (fun row => String.eqb (Token.address row) (Token.address token)
                     && Bool.eqb (Token.gas row) true) rows =
  if Token.gas token then [token] else [].
Proof.
  induction rows as [| row rest IH]; intros Hnodup Hin; [contradiction |].
  simpl in Hnodup. inversion Hnodup as [| ? ? Hfresh Hrest]; subst.
  destruct Hin as [-> | Hin].
  - simpl. rewrite String.eqb_refl. simpl.
    rewrite (no_row_at (Token.address token) rest).
    + destruct (Token.gas token); reflexivity.
    + intros row' Hin' Heq. apply Hfresh. rewrite <- Heq. apply in_map. exact Hin'.
  - simpl.
    assert (Hne : Token.address row <> Token.address token).
    { intros Heq. apply Hfresh. rewrite Heq. apply in_map. exact Hin. }
    apply String.eqb_neq in Hne. rewrite Hne. simpl. apply IH; assumption.
Qed.

(** X5: on a token table that holds one row per address, the resolution of
    an address other than the zero address depends on the row of that address
    alone: it returns the value of the row when the row is flagged as a gas
    token, raises [InvalidPaymentToken] when the row is not flagged or when
    the table has no row for the address, and never raises
    [MultipleObjectsReturned]. *)
Theorem unique_token_resolution (address : option string) (w : World Node) :
  token_addresses_unique (db w) ->
  or_null address <> NULL_ADDRESS ->
  let run := _get_token_eth_value_or_raise Node address w in
  let looked_up := logged (TokenLookup (or_null address)) w in
  (forall token,
     In token (tokens (db w)) -> Token.address token = or_null address ->
     run = (if Token.gas token then Ok (Token.get_eth_value token)
            else Raise (InvalidPaymentToken (or_null address)),
            looked_up)) /\
  ((forall token, In token (tokens (db w)) -> Token.address token <> or_null address) ->
   run = (Raise (InvalidPaymentToken (or_null address)), looked_up)) /\
  fst run <> Raise (MultipleObjectsReturned "Token").
Proof.
  intros Hunique Hnull. cbv zeta. rewrite token_value_run.
  apply String.eqb_neq in Hnull as Hneq. rewrite Hneq.
  assert (Hrow : forall token,
             In token (tokens (db w)) -> Token.address token = or_null address ->
             gas_tokens_at (or_null address) (db w) =
             if Token.gas token then [token] else []).
  { intros token Hin Ha. unfold gas_tokens_at. rewrite <- Ha.
    apply unique_row_at; assumption. }
  assert (Hnone : (forall token, In token (tokens (db w)) ->
                                 Token.address token <> or_null address) ->
                  gas_tokens_at (or_null address) (db w) = []).
  { intros H. unfold gas_tokens_at. apply no_row_at. exact H. }
  split; [| split].
  - intros token Hin Ha. rewrite (Hrow token Hin Ha).
    destruct (Token.gas token); reflexivity.
  - intros H. rewrite (Hnone H). reflexivity.
  - destruct (gas_tokens_at (or_null address) (db w)) as [| t1 [| t2 rest]] eqn:Hrows;
      simpl; try discriminate.
    assert (Hin : In t1 (gas_tokens_at (or_null address) (db w)))
      by (rewrite Hrows; left; reflexivity).
    apply gas_tokens_at_In in Hin as (Hin & Ha & _).
    pose proof (Hrow t1 Hin Ha) as Hone. try rewrite Hrows in Hone.
    destruct (Token.gas t1); discriminate Hone.
Qed.

(** X6: when the lookup selects more than one row, the exception is
    [MultipleObjectsReturned], which the handler of
    [_get_token_eth_value_or_raise] does not catch: it leaves the resolution
    and the two creation functions as it is, after the token lookup alone and
    with nothing written. *)
Theorem doubled_token_is_not_caught (accepts : Db -> write -> bool)
  (self : SafeCreationService Node) (payment_token : option string) (w : World Node)
  (first second : Token.t) (others : list Token.t) :
  or_null payment_token <> NULL_ADDRESS ->
  gas_tokens_at (or_null payment_token) (db w) = first :: second :: others ->
  let looked_up := logged (TokenLookup (or_null payment_token)) w in
  _get_token_eth_value_or_raise Node payment_token w =
    (Raise (MultipleObjectsReturned "Token"), looked_up) /\
  forall s owners threshold,
    create_safe_tx Node accepts self s owners threshold payment_token w =
      (Raise (MultipleObjectsReturned "Token"), looked_up) /\
    create2_safe_tx Node accepts self s owners threshold payment_token w =
      (Raise (MultipleObjectsReturned "Token"), looked_up).
Proof.
  intros Hnull Hrows. cbv zeta.
  apply String.eqb_neq in Hnull as Hneq.
  assert (Hrun : _get_token_eth_value_or_raise Node (Some (or_null payment_token)) w =
                 (Raise (MultipleObjectsReturned "Token"),
                  logged (TokenLookup (or_null payment_token)) w)).
  { rewrite token_value_run, or_null_idempotent, Hneq, Hrows. reflexivity. }
  split.
  - rewrite token_value_run, Hneq, Hrows. reflexivity.
  - intros s owners threshold. unfold create_safe_tx, create2_safe_tx. cbv zeta.
    split; apply bind_Raise; exact Hrun.
Qed.

End TokenTable.

(** X5 on the scripted token table: a gas token, a token that is registered
    without the flag, and an address that is not registered. *)
Lemma unique_token_resolution_witness :
  fst (_get_token_eth_value_or_raise Scenario.Node (Some Scenario.gas_token_1)
         Scenario.empty_world) = Ok (1 # 2)%Q /\
  fst (_get_token_eth_value_or_raise Scenario.Node (Some Scenario.plain_token)
         Scenario.empty_world) = Raise (InvalidPaymentToken Scenario.plain_token).
Proof.
  assert (Hunique : token_addresses_unique (db Scenario.empty_world)).
  { unfold token_addresses_unique. simpl.
    constructor; [intros [H | []]; discriminate H |].
    constructor; [intros [] | constructor]. }
  split.
  - apply (f_equal fst
             (proj1 (unique_token_resolution Scenario.Node (Some Scenario.gas_token_1)
                       Scenario.empty_world Hunique ltac:(discriminate))
                (Token.mk Scenario.gas_token_1 true (1 # 2))
                (or_introl eq_refl) eq_refl)).
  - apply (f_equal fst
             (proj1 (unique_token_resolution Scenario.Node (Some Scenario.plain_token)
                       Scenario.empty_world Hunique ltac:(discriminate))
                (Token.mk Scenario.plain_token false (1 # 4))
                (or_intror (or_introl eq_refl)) eq_refl)).
Defined.

(** X6 on a table in which a gas token was registered twice. *)
Lemma doubled_token_is_not_caught_witness :
  create_safe_tx Scenario.Node Scenario.accepts_all Scenario.service 5
    [Scenario.owner_1] 1 (Some Scenario.gas_token_1) Fixtures.doubled_world =
  (Raise (MultipleObjectsReturned "Token"),
   logged (TokenLookup Scenario.gas_token_1) Fixtures.doubled_world).
Proof.
  apply (proj2 (doubled_token_is_not_caught Scenario.Node Scenario.accepts_all
                  Scenario.service (Some Scenario.gas_token_1) Fixtures.doubled_world
                  (Token.mk Scenario.gas_token_1 true (1 # 2))
                  (Token.mk Scenario.gas_token_1 true (1 # 3)) []
                  ltac:(discriminate) eq_refl)).
Defined.

(** ** What a successful creation tells about its steps *)

Section CreationInversion.
Variable Node : Type.
Variable accepts : Db -> write -> bool.
Variable self : SafeCreationService Node.

Lemma create_safe_tx_Ok_inv s owners threshold payment_token (w : World Node) row w' :
  create_safe_tx Node accepts self s owners threshold payment_token w = (Ok row, w') ->
  exists value prices tx,
    fst (_get_token_eth_value_or_raise Node (Some (or_null payment_token)) w) = Ok value /\
    get_gas_prices (gas_station self) = Ok prices /\
    build_safe_creation_tx (safe_service self) (node w) s owners threshold
      (GasPrices.fast prices) (or_null payment_token) value
      (safe_fixed_creation_cost self) = Ok tx /\
    row = SafeCreation_of tx owners threshold /\
    w' = written (InsertSafeCreation row)
           (written (InsertSafeContract (stub_of tx)) (after_lookups payment_token w)).
Proof.
  intros H.
  destruct (_get_token_eth_value_or_raise Node (Some (or_null payment_token)) w)
    as [[value | e] w1] eqn:Htoken.
  2:{ unfold create_safe_tx in H. cbv zeta in H.
      rewrite (bind_Raise Node _ _ w e w1 Htoken) in H. discriminate H. }
  assert (Hvalue : fst (_get_token_eth_value_or_raise Node
                          (Some (or_null payment_token)) w) = Ok value)
    by (rewrite Htoken; reflexivity).
  destruct (get_gas_prices (gas_station self)) as [prices | e] eqn:Hgas.
  2:{ unfold create_safe_tx in H. cbv zeta in H.
      rewrite (gas_station_failure_run Node self payment_token _ w value e Hvalue Hgas)
        in H.
      discriminate H. }
  rewrite (create_safe_tx_run Node accepts self s owners threshold payment_token w
             value prices Hvalue Hgas) in H.
  cbv zeta in H.
  destruct (build_safe_creation_tx _ _ _ _ _ _ _ _ _) as [tx | e] eqn:Hbuild;
    [| discriminate H].
  destruct (accepts (db w) (InsertSafeContract (stub_of tx))); [| discriminate H].
  destruct (accepts _ (InsertSafeCreation _)); [| discriminate H].
  inversion H; subst. exists value, prices, tx. repeat split; assumption.
Qed.

Lemma create2_safe_tx_Ok_inv salt_nonce owners threshold payment_token (w : World Node)
  row w' :
  create2_safe_tx Node accepts self salt_nonce owners threshold payment_token w
    = (Ok row, w') ->
  exists value prices tx,
    fst (_get_token_eth_value_or_raise Node (Some (or_null payment_token)) w) = Ok value /\
    get_gas_prices (gas_station self) = Ok prices /\
    build_safe_create2_tx (safe_service self) (node w) salt_nonce owners threshold
      (GasPrices.fast prices) (or_null payment_token) value
      (safe_fixed_creation_cost self) = Ok tx /\
    row = SafeCreation2_of tx salt_nonce owners threshold /\
    w' = written (InsertSafeCreation2 row)
           (written (InsertSafeContract (stub2_of tx)) (after_lookups payment_token w)).
Proof.
  intros H.
  destruct (_get_token_eth_value_or_raise Node (Some (or_null payment_token)) w)
    as [[value | e] w1] eqn:Htoken.
  2:{ unfold create2_safe_tx in H. cbv zeta in H.
      rewrite (bind_Raise Node _ _ w e w1 Htoken) in H. discriminate H. }
  assert (Hvalue : fst (_get_token_eth_value_or_raise Node
                          (Some (or_null payment_token)) w) = Ok value)
    by (rewrite Htoken; reflexivity).
  destruct (get_gas_prices (gas_station self)) as [prices | e] eqn:Hgas.
  2:{ unfold create2_safe_tx in H. cbv zeta in H.
      rewrite (gas_station_failure_run Node self payment_token _ w value e Hvalue Hgas)
        in H.
      discriminate H. }
  rewrite (create2_safe_tx_run Node accepts self salt_nonce owners threshold
             payment_token w value prices Hvalue Hgas) in H.
  cbv zeta in H.
  destruct (build_safe_create2_tx _ _ _ _ _ _ _ _ _) as [tx | e] eqn:Hbuild;
    [| discriminate H].
  destruct (accepts (db w) (InsertSafeContract (stub2_of tx))); [| discriminate H].
  destruct (accepts _ (InsertSafeCreation2 _)); [| discriminate H].
  inversion H; subst. exists value, prices, tx. repeat split; assumption.
Qed.

End CreationInversion.

(** ** The tables across a creation *)

Section CreationTables.
Variable Node : Type.
Variable accepts : Db -> write -> bool.
Variable self : SafeCreationService Node.

(** X7: [create_safe_tx] and [create2_safe_tx] only append: whatever the
    outcome, the token table and the table of the other scheme are as before,
    and the stubs and the records of their own table are the old rows followed
    by at most one new row; a record is added only together with a stub, and
    only by a call that returns that record. *)
Theorem creation_only_appends s owners threshold payment_token (w : World Node) :
  (let run := create_safe_tx Node accepts self s owners threshold payment_token w in
   tokens (db (snd run)) = tokens (db w) /\
   safe_creations2 (db (snd run)) = safe_creations2 (db w) /\
   exists stubs rows,
     safe_contracts (db (snd run)) = safe_contracts (db w) ++ stubs /\
     safe_creations (db (snd run)) = safe_creations (db w) ++ rows /\
     (length rows <= length stubs <= 1)%nat /\
     (rows = [] \/ exists row, fst run = Ok row /\ rows = [row])) /\
  (let run := create2_safe_tx Node accepts self s owners threshold payment_token w in
   tokens (db (snd run)) = tokens (db w) /\
   safe_creations (db (snd run)) = safe_creations (db w) /\
   exists stubs rows,
     safe_contracts (db (snd run)) = safe_contracts (db w) ++ stubs /\
     safe_creations2 (db (snd run)) = safe_creations2 (db w) ++ rows /\
     (length rows <= length stubs <= 1)%nat /\
     (rows = [] \/ exists row, fst run = Ok row /\ rows = [row])).
Proof.
  split; cbv zeta.
  - destruct (create_safe_tx Node accepts self s owners threshold payment_token w)
      as [r w'] eqn:H. cbn [fst snd].
    apply create_safe_tx_outcomes in H
      as [_ [[Hdb _] | [(stub & _ & _ & Hdb) | (tx & g & v & row & _ & Hok & _ & _ & Hdb)]]];
      rewrite Hdb; cbn [apply_write tokens safe_contracts safe_creations safe_creations2].
    + split; [reflexivity | split; [reflexivity |]].
      exists [], []. rewrite !app_nil_r.
      split; [reflexivity | split; [reflexivity | split; [simpl; lia |]]].
      left; reflexivity.
    + split; [reflexivity | split; [reflexivity |]].
      exists [stub], []. rewrite app_nil_r.
      split; [reflexivity | split; [reflexivity | split; [simpl; lia |]]].
      left; reflexivity.
    + split; [reflexivity | split; [reflexivity |]].
      eexists [_], [row].
      split; [reflexivity | split; [reflexivity | split; [simpl; lia |]]].
      right. exists row. split; [exact Hok | reflexivity].
  - destruct (create2_safe_tx Node accepts self s owners threshold payment_token w)
      as [r w'] eqn:H. cbn [fst snd].
    apply create2_safe_tx_outcomes in H
      as [_ [[Hdb _] | [(stub & _ & _ & Hdb) | (tx & g & v & row & _ & Hok & _ & _ & Hdb)]]];
      rewrite Hdb; cbn [apply_write tokens safe_contracts safe_creations safe_creations2].
    + split; [reflexivity | split; [reflexivity |]].
      exists [], []. rewrite !app_nil_r.
      split; [reflexivity | split; [reflexivity | split; [simpl; lia |]]].
      left; reflexivity.
    + split; [reflexivity | split; [reflexivity |]].
      exists [stub], []. rewrite app_nil_r.
      split; [reflexivity | split; [reflexivity | split; [simpl; lia |]]].
      left; reflexivity.
    + split; [reflexivity | split; [reflexivity |]].
      eexists [_], [row].
      split; [reflexivity | split; [reflexivity | split; [simpl; lia |]]].
      right. exists row. split; [exact Hok | reflexivity].
Qed.

Lemma has_stub_after_stub (d : Db) (stub : SafeContract.t) (safe : string) :
  has_stub d safe -> has_stub (apply_write (InsertSafeContract stub) d) safe.
Proof.
  intros (found & Hin & Ha). exists found. split; [| exact Ha].
  simpl. apply in_or_app. left. exact Hin.
Qed.

Lemma records_have_stubs_after_stub (d : Db) (stub : SafeContract.t) :
  records_have_stubs d -> records_have_stubs (apply_write (InsertSafeContract stub) d).
Proof.
  intros [H1 H2]. split; intros row Hin; apply has_stub_after_stub;
    [apply H1 | apply H2]; exact Hin.
Qed.

Lemma new_stub_is_there (d : Db) (stub : SafeContract.t) :
  has_stub (apply_write (InsertSafeContract stub) d) (SafeContract.address stub).
Proof.
  exists stub. split; [| reflexivity]. simpl. apply in_or_app. right. left. reflexivity.
Qed.

(** X8: the two creation functions keep the tables referentially sound: if
    every creation record pointed to a wallet stub of the tables before the
    call, so does every creation record after it, whatever the outcome of the
    call; the record a call adds points to the stub the same call added. *)
Theorem creation_keeps_records_with_stubs s owners threshold payment_token
  (w : World Node) :
  records_have_stubs (db w) ->
  records_have_stubs
    (db (snd (create_safe_tx Node accepts self s owners threshold payment_token w))) /\
  records_have_stubs
    (db (snd (create2_safe_tx Node accepts self s owners threshold payment_token w))).
Proof.
  intros Hinv. split.
  - destruct (create_safe_tx Node accepts self s owners threshold payment_token w)
      as [r w'] eqn:H. cbn [snd].
    apply create_safe_tx_outcomes in H
      as [_ [[Hdb _] | [(stub & _ & _ & Hdb) | (tx & g & v & row & _ & _ & Hsafe & _ & Hdb)]]];
      rewrite Hdb.
    + exact Hinv.
    + apply records_have_stubs_after_stub. exact Hinv.
    + set (stub := SafeContract.mk (SafeCreationTx.safe_address tx)
                                   (SafeCreationTx.master_copy tx)).
      pose proof (records_have_stubs_after_stub (db w) stub Hinv) as [H1 H2].
      split.
      * intros row' Hin. simpl in Hin. apply in_app_or in Hin as [Hin | [<- | []]].
        -- apply H1. exact Hin.
        -- rewrite Hsafe. apply (new_stub_is_there (db w) stub).
      * exact H2.
  - destruct (create2_safe_tx Node accepts self s owners threshold payment_token w)
      as [r w'] eqn:H. cbn [snd].
    apply create2_safe_tx_outcomes in H
      as [_ [[Hdb _] | [(stub & _ & _ & Hdb) | (tx & g & v & row & _ & _ & Hsafe & _ & Hdb)]]];
      rewrite Hdb.
    + exact Hinv.
    + apply records_have_stubs_after_stub. exact Hinv.
    + set (stub := SafeContract.mk (SafeCreate2Tx.safe_address tx)
                                   (SafeCreate2Tx.master_copy_address tx)).
      pose proof (records_have_stubs_after_stub (db w) stub Hinv) as [H1 H2].
      split.
      * exact H1.
      * intros row' Hin. simpl in Hin. apply in_app_or in Hin as [Hin | [<- | []]].
        -- apply H2. exact Hin.
        -- rewrite Hsafe. apply (new_stub_is_there (db w) stub).
Qed.

End CreationTables.

(** X7 on a creation whose record is refused: one stub and no record. *)
Lemma creation_only_appends_witness :
  exists stubs rows,
    safe_contracts
      (db (snd (create_safe_tx Scenario.Node Scenario.records_rejected Scenario.service 5
                  [Scenario.owner_1] 1 None Scenario.empty_world)))
      = safe_contracts (db Scenario.empty_world) ++ stubs /\
    safe_creations
      (db (snd (create_safe_tx Scenario.Node Scenario.records_rejected Scenario.service 5
                  [Scenario.owner_1] 1 None Scenario.empty_world)))
      = safe_creations (db Scenario.empty_world) ++ rows /\
    (length rows <= length stubs <= 1)%nat.
Proof.
  destruct (proj1 (creation_only_appends Scenario.Node Scenario.records_rejected
                     Scenario.service 5 [Scenario.owner_1] 1 None Scenario.empty_world))
    as (_ & _ & stubs & rows & Hstubs & Hrows & Hlen & _).
  exists stubs, rows. repeat split; tauto.
Defined.

(** X8 on the empty tables. *)
Lemma creation_keeps_records_with_stubs_witness :
  records_have_stubs
    (db (snd (create_safe_tx Scenario.Node Scenario.accepts_all Scenario.service 5
                [Scenario.owner_1] 1 None Scenario.empty_world))).
Proof.
  apply (creation_keeps_records_with_stubs Scenario.Node Scenario.accepts_all
           Scenario.service 5 [Scenario.owner_1] 1 None Scenario.empty_world).
  split; intros row [].
Defined.

(** ** The salted record across a deployment *)

Section DeploymentTables.
Variable Node : Type.
Variable accepts : Db -> write -> bool.
Variable self : SafeCreationService Node.

Lemma objects_get_Ok {A : Type} (model : string) (matches : A -> bool) (rows : list A)
  (row : A) :
  objects_get model matches rows = Ok row <-> filter matches rows = [row].
Proof.
  unfold objects_get.
  destruct (filter matches rows) as [| first [| second rest]]; split; intros H;
    try discriminate H; inversion H; reflexivity.
Qed.

Lemma filter_single {A : Type} (matches : A -> bool) (rows : list A) (row : A) :
  filter matches rows = [row] ->
  In row rows /\ matches row = true /\
  forall other, In other rows -> matches other = true -> other = row.
Proof.
  intros H.
  assert (Hin : In row (filter matches rows)) by (rewrite H; left; reflexivity).
  apply filter_In in Hin as [Hin Hm]. repeat split; try assumption.
  intros other Ho Hmo.
  assert (Hfo : In other (filter matches rows)) by (apply filter_In; split; assumption).
  rewrite H in Hfo. destruct Hfo as [<- | []]. reflexivity.
Qed.

Lemma replace_creation2_untouched (new : SafeCreation2.t) (rows : list SafeCreation2.t) :
  (forall old, In old rows -> SafeCreation2.safe old <> SafeCreation2.safe new) ->
  replace_creation2 new rows = rows.
Proof.
  induction rows as [| old rest IH]; intros H; simpl; [reflexivity |].
  assert (Hne : SafeCreation2.safe old <> SafeCreation2.safe new)
    by (apply H; left; reflexivity).
  apply String.eqb_neq in Hne. rewrite Hne. f_equal.
  apply IH. intros other Hin. apply H. right. exact Hin.
Qed.

(** Saving a record does not move any record to another address. *)
Lemma records_at_replace (address : string) (new : SafeCreation2.t)
  (rows : list SafeCreation2.t) :
  filter (fun row => String.eqb (SafeCreation2.safe row) address)
         (replace_creation2 new rows) =
  replace_creation2 new
    (filter (fun row => String.eqb (SafeCreation2.safe row) address) rows).
Proof.
  unfold replace_creation2.
  induction rows as [| old rest IH]; [reflexivity |].
  cbn [map filter].
  destruct (String.eqb (SafeCreation2.safe old) (SafeCreation2.safe new)) eqn:Hb.
  - apply String.eqb_eq in Hb as He.
    replace (String.eqb (SafeCreation2.safe new) address)
      with (String.eqb (SafeCreation2.safe old) address) by (rewrite He; reflexivity).
    destruct (String.eqb (SafeCreation2.safe old) address); cbn [map].
    + rewrite Hb, IH. reflexivity.
    + exact IH.
  - destruct (String.eqb (SafeCreation2.safe old) address); cbn [map].
    + rewrite Hb, IH. reflexivity.
    + exact IH.
Qed.

Lemma replace_creation2_same_rows (h : bytes) (row : SafeCreation2.t)
  (rows : list SafeCreation2.t) :
  (forall old, In old rows -> SafeCreation2.safe old = SafeCreation2.safe row ->
               old = row) ->
  map without_tx_hash (replace_creation2 (SafeCreation2.set_tx_hash h row) rows) =
  map without_tx_hash rows.
Proof.
  induction rows as [| old rest IH]; intros H; simpl; [reflexivity |].
  rewrite IH by (intros other Hin; apply H; right; exact Hin). f_equal.
  destruct (String.eqb (SafeCreation2.safe old) (SafeCreation2.safe row)) eqn:Hsame.
  - apply String.eqb_eq in Hsame.
    rewrite (H old (or_introl eq_refl) Hsame). reflexivity.
  - reflexivity.
Qed.

(** The two ways a call of [deploy_create2_safe_tx] can leave the tables. *)
Lemma deploy_create2_safe_tx_outcomes (safe_address : string) (w : World Node) r w' :
  deploy_create2_safe_tx Node accepts self safe_address w = (r, w') ->
  (db w' = db w /\ forall h, r <> Ok h) \/
  (exists row h,
     records_at safe_address (db w) = [row] /\ r = Ok h /\
     db w' = apply_write (SaveSafeCreation2 (SafeCreation2.set_tx_hash h row)) (db w)).
Proof.
  rewrite deploy_create2_safe_tx_run.
  destruct (objects_get _ _ _) as [row | e] eqn:Hfound.
  2:{ intros H. inversion H; subst. left. split; [reflexivity | discriminate]. }
  apply objects_get_Ok in Hfound. cbv zeta.
  destruct (deploy_proxy_contract_with_nonce _ _ _ _ _ _ _) as [[[h proxy] | e] node'];
    cbn [fst snd].
  - destruct (accepts (db w) _); intros H; inversion H; subst.
    + right. exists row, h. repeat split. exact Hfound.
    + left. split; [reflexivity | discriminate].
  - intros H. inversion H; subst. left. split; [reflexivity | discriminate].
Qed.

(** X9: whatever its outcome, [deploy_create2_safe_tx] leaves the token
    table, the wallet stubs and the records of the other scheme as they were;
    of the salted records it changes nothing but a transaction hash: the
    rows, their order and every other column stay, and the records held for
    any other address are untouched.  Tables in which every record points to
    a stub stay so. *)
Theorem deploy_changes_only_the_hash (safe_address : string) (w : World Node) :
  let after := db (snd (deploy_create2_safe_tx Node accepts self safe_address w)) in
  tokens after = tokens (db w) /\
  safe_contracts after = safe_contracts (db w) /\
  safe_creations after = safe_creations (db w) /\
  map without_tx_hash (safe_creations2 after) =
    map without_tx_hash (safe_creations2 (db w)) /\
  (forall other, other <> safe_address ->
                 records_at other after = records_at other (db w)) /\
  (records_have_stubs (db w) -> records_have_stubs after).
Proof.
  cbv zeta.
  destruct (deploy_create2_safe_tx Node accepts self safe_address w) as [r w'] eqn:H.
  cbn [snd].
  apply deploy_create2_safe_tx_outcomes in H
    as [[Hdb _] | (row & h & Hrows & _ & Hdb)]; rewrite Hdb.
  - do 4 (split; [reflexivity |]).
    split; [intros other _; reflexivity | intros Hinv; exact Hinv].
  - apply filter_single in Hrows as (Hin & Hsafe & Honly).
    apply String.eqb_eq in Hsafe.
    cbn [apply_write tokens safe_contracts safe_creations safe_creations2].
    split; [reflexivity | split; [reflexivity | split; [reflexivity | split; [| split]]]].
    + apply replace_creation2_same_rows. intros old Hold Hsame.
      apply Honly; [exact Hold |]. apply String.eqb_eq. congruence.
    + intros other Hother. unfold records_at.
      cbn [safe_creations2]. rewrite records_at_replace.
      apply replace_creation2_untouched. intros old Hold.
      apply filter_In in Hold as [_ Hat]. apply String.eqb_eq in Hat.
      change (SafeCreation2.safe (SafeCreation2.set_tx_hash h row))
        with (SafeCreation2.safe row).
      congruence.
    + intros [H1 H2]. split; [exact H1 |].
      intros row' Hin'. cbn [safe_creations2] in Hin'.
      unfold replace_creation2 in Hin'. apply in_map_iff in Hin' as (old & Hrow' & Hold).
      destruct (String.eqb (SafeCreation2.safe old)
                  (SafeCreation2.safe (SafeCreation2.set_tx_hash h row))) eqn:Hsame.
      * subst row'.
        change (SafeCreation2.safe (SafeCreation2.set_tx_hash h row))
          with (SafeCreation2.safe row).
        destruct (H2 row Hin) as (stub & Hs & Ha). exists stub. split; assumption.
      * subst row'. destruct (H2 old Hold) as (stub & Hs & Ha).
        exists stub. split; assumption.
Qed.

(** X10: after a call of [deploy_create2_safe_tx] that returned a hash, the
    lookup of the same address finds one record: the record found before the
    call, with that hash as its transaction hash. *)
Theorem deploy_then_lookup (safe_address : string) (w : World Node) h w' :
  deploy_create2_safe_tx Node accepts self safe_address w = (Ok h, w') ->
  exists row,
    records_at safe_address (db w) = [row] /\
    records_at safe_address (db w') = [SafeCreation2.set_tx_hash h row] /\
    fst (SafeCreation2_objects_get Node safe_address w') =
      Ok (SafeCreation2.set_tx_hash h row) /\
    SafeCreation2.tx_hash (SafeCreation2.set_tx_hash h row) = Some h /\
    without_tx_hash (SafeCreation2.set_tx_hash h row) = without_tx_hash row.
Proof.
  intros H.
  apply deploy_create2_safe_tx_outcomes in H
    as [[_ Hbad] | (row & h' & Hrows & Hok & Hdb)];
    [exfalso; apply (Hbad h); reflexivity |].
  inversion Hok; subst h'. clear Hok. exists row.
  assert (Hafter : records_at safe_address (db w') = [SafeCreation2.set_tx_hash h row]).
  { unfold records_at. rewrite Hdb. cbn [apply_write safe_creations2].
    rewrite records_at_replace. fold (records_at safe_address (db w)). rewrite Hrows.
    simpl. rewrite String.eqb_refl. reflexivity. }
  split; [exact Hrows | split; [exact Hafter | split; [| split; reflexivity]]].
  rewrite record_lookup_run. cbn [fst]. apply objects_get_Ok. exact Hafter.
Qed.

(** X11: a salted creation followed by the deployment of its wallet.  After
    [create2_safe_tx] returned a record for an address that had none, the
    record is the only one held for its address; [deploy_create2_safe_tx] for
    that address finds it and hands the node one deployment with the salt
    nonce given at creation and the setup data, gas and gas price the builder
    estimated then; and when the node answers with a hash and the save is
    taken, the call returns the hash and the record holds it. *)
Theorem create2_then_deploy salt_nonce owners threshold payment_token (w : World Node)
  row w1 :
  create2_safe_tx Node accepts self salt_nonce owners threshold payment_token w
    = (Ok row, w1) ->
  records_at (SafeCreation2.safe row) (db w) = [] ->
  let run := deploy_create2_safe_tx Node accepts self (SafeCreation2.safe row) w1 in
  let call :=
    DeployCall salt_nonce (SafeCreation2.setup_data row)
      (SafeCreation2.gas_estimated row) (SafeCreation2.gas_price_estimated row) in
  let answer :=
    deploy_proxy_contract_with_nonce (safe_service self) (node w) salt_nonce
      (SafeCreation2.setup_data row) (SafeCreation2.gas_estimated row)
      (SafeCreation2.gas_price_estimated row) (safe_funder_private_key self) in
  records_at (SafeCreation2.safe row) (db w1) = [row] /\
  (exists tx value prices,
     build_safe_create2_tx (safe_service self) (node w) salt_nonce owners threshold
       (GasPrices.fast prices) (or_null payment_token) value
       (safe_fixed_creation_cost self) = Ok tx /\
     SafeCreation2.setup_data row = SafeCreate2Tx.safe_setup_data tx /\
     SafeCreation2.gas_estimated row = SafeCreate2Tx.gas tx /\
     SafeCreation2.gas_price_estimated row = SafeCreate2Tx.gas_price tx) /\
  (exists rest,
     trace (snd run) =
     trace w1 ++ [RecordLookup (SafeCreation2.safe row); call] ++ rest) /\
  deploy_calls (trace (snd run)) = S (deploy_calls (trace w1)) /\
  (forall h proxy,
     fst answer = Ok (h, proxy) ->
     accepts (db w1) (SaveSafeCreation2 (SafeCreation2.set_tx_hash h row)) = true ->
     fst run = Ok h /\
     records_at (SafeCreation2.safe row) (db (snd run)) =
       [SafeCreation2.set_tx_hash h row]).
Proof.
  intros Hcreate Hfresh. cbv zeta.
  apply create2_safe_tx_Ok_inv in Hcreate
    as (value & prices & tx & _ & _ & Hbuild & Hrow & Hw1).
  assert (Hnode : node w1 = node w).
  { rewrite Hw1. unfold written. cbn [node].
    apply (after_lookups_state Node payment_token w). }
  assert (Hat : records_at (SafeCreation2.safe row) (db w1) = [row]).
  { rewrite Hw1. unfold records_at, written. cbn [db apply_write safe_creations2].
    destruct (after_lookups_state Node payment_token w) as [Hdb _]. rewrite Hdb.
    rewrite filter_app. fold (records_at (SafeCreation2.safe row) (db w)).
    rewrite Hfresh. simpl. rewrite String.eqb_refl. reflexivity. }
  assert (Hfound : objects_get "SafeCreation2"
                     (fun r => String.eqb (SafeCreation2.safe r) (SafeCreation2.safe row))
                     (safe_creations2 (db w1)) = Ok row)
    by (apply objects_get_Ok; exact Hat).
  assert (Hsalt : SafeCreation2.salt_nonce row = salt_nonce) by (rewrite Hrow; reflexivity).
  split; [exact Hat |]. split.
  { exists tx, value, prices. rewrite Hrow. repeat split. exact Hbuild. }
  rewrite deploy_create2_safe_tx_run, Hfound, Hnode, Hsalt. cbv zeta.
  destruct (deploy_proxy_contract_with_nonce (safe_service self) (node w) salt_nonce
              (SafeCreation2.setup_data row) (SafeCreation2.gas_estimated row)
              (SafeCreation2.gas_price_estimated row) (safe_funder_private_key self))
    as [[[h proxy] | e] node'] eqn:Hanswer; cbn [fst snd].
  - destruct (accepts (db w1) (SaveSafeCreation2 (SafeCreation2.set_tx_hash h row)))
      eqn:Hsave; cbn [fst snd trace db].
    + split; [eexists; rewrite <- !app_assoc; reflexivity |]. split.
      * cbn [fst snd trace db]. rewrite !deploy_calls_app. unfold deploy_calls. simpl. lia.
      * intros h' proxy' Hok _. inversion Hok; subst h' proxy'.
        split; [reflexivity |].
        unfold records_at. cbn [apply_write safe_creations2].
        rewrite records_at_replace. fold (records_at (SafeCreation2.safe row) (db w1)).
        rewrite Hat. simpl. rewrite String.eqb_refl. reflexivity.
    + split; [exists []; rewrite app_nil_r; reflexivity |]. split.
      * cbn [fst snd trace db]. rewrite !deploy_calls_app. unfold deploy_calls. simpl. lia.
      * intros h' proxy' Hok Hacc. inversion Hok; subst h' proxy'.
        rewrite Hsave in Hacc. discriminate Hacc.
  - cbn [fst snd trace db].
    split; [exists []; rewrite app_nil_r; reflexivity |]. split.
    + cbn [fst snd trace db]. rewrite !deploy_calls_app. unfold deploy_calls. simpl. lia.
    + intros h proxy Hok. discriminate Hok.
Qed.

End DeploymentTables.

(** X9 on the deployment of the scripted wallet: the stubs stay. *)
Lemma deploy_changes_only_the_hash_witness :
  safe_contracts
    (db (snd (deploy_create2_safe_tx Scenario.Node Scenario.accepts_all Scenario.service
                Scenario.safe_1 Scenario.world_with_record))) =
  [SafeContract.mk Scenario.safe_1 Scenario.master].
Proof.
  apply (proj1 (proj2 (deploy_changes_only_the_hash Scenario.Node Scenario.accepts_all
                         Scenario.service Scenario.safe_1 Scenario.world_with_record))).
Defined.

(** X10 on the deployment of the scripted wallet. *)
Lemma deploy_then_lookup_witness :
  exists row,
    records_at Scenario.safe_1 (db Scenario.world_with_record) = [row] /\
    records_at Scenario.safe_1
      (db (snd (deploy_create2_safe_tx Scenario.Node Scenario.accepts_all
                  Scenario.service Scenario.safe_1 Scenario.world_with_record)))
      = [SafeCreation2.set_tx_hash [Byte.x00] row].
Proof.
  destruct (deploy_then_lookup Scenario.Node Scenario.accepts_all Scenario.service
              Scenario.safe_1 Scenario.world_with_record [Byte.x00]
              (snd (deploy_create2_safe_tx Scenario.Node Scenario.accepts_all
                      Scenario.service Scenario.safe_1 Scenario.world_with_record))
              eq_refl)
    as (row & Hbefore & Hafter & _).
  exists row. split; assumption.
Defined.

(** X11 on a salted creation on the empty tables. *)
Lemma create2_then_deploy_witness :
  records_at Scenario.safe_1
    (db (snd (create2_safe_tx Scenario.Node Scenario.accepts_all Scenario.service 7
                [Scenario.owner_1] 1 None Scenario.empty_world)))
  = [SafeCreation2_of Fixtures.built_tx2 7 [Scenario.owner_1] 1].
Proof.
  apply (create2_then_deploy Scenario.Node Scenario.accepts_all Scenario.service 7
           [Scenario.owner_1] 1 None Scenario.empty_world
           (SafeCreation2_of Fixtures.built_tx2 7 [Scenario.owner_1] 1)
           (snd (create2_safe_tx Scenario.Node Scenario.accepts_all Scenario.service 7
                   [Scenario.owner_1] 1 None Scenario.empty_world))
           eq_refl eq_refl).
Defined.

(** ** The provider of the service *)

Section ProviderFacts.
Variable Node : Type.

(** X12: the provider builds the service once.  A call on a class that holds
    no instance builds one from the collaborators and the settings of that
    call and keeps it; every later call returns the instance that is kept,
    whatever the collaborators and the settings have become; after
    [del_singleton] the next call builds a new instance from the settings of
    that call.  [del_singleton] on a class that holds no instance does
    nothing. *)
Theorem provider_keeps_one_instance
  (safe_service_1 safe_service_2 : SafeService Node) (station_1 station_2 : GasStation)
  (settings_1 settings_2 : Settings.t) (c : SafeCreationServiceProvider.cls Node) :
  let first :=
    SafeCreationServiceProvider.__new__ Node safe_service_1 station_1 settings_1 c in
  let second :=
    SafeCreationServiceProvider.__new__ Node safe_service_2 station_2 settings_2
      (snd first) in
  let rebuilt :=
    SafeCreationServiceProvider.__new__ Node safe_service_2 station_2 settings_2
      (SafeCreationServiceProvider.del_singleton Node (snd first)) in
  snd first = Some (fst first) /\
  (c = None ->
   fst first = mkSafeCreationService Node safe_service_1 station_1
                 (Settings.SAFE_FUNDER_PRIVATE_KEY settings_1)
                 (Settings.SAFE_FIXED_CREATION_COST settings_1)) /\
  fst second = fst first /\ snd second = snd first /\
  fst rebuilt = mkSafeCreationService Node safe_service_2 station_2
                  (Settings.SAFE_FUNDER_PRIVATE_KEY settings_2)
                  (Settings.SAFE_FIXED_CREATION_COST settings_2) /\
  SafeCreationServiceProvider.del_singleton Node
    (SafeCreationServiceProvider.del_singleton Node c) =
  SafeCreationServiceProvider.del_singleton Node c /\
  SafeCreationServiceProvider.del_singleton Node None = None.
Proof.
  cbv zeta. destruct c as [instance |]; simpl; repeat split; intros; try reflexivity.
  discriminate.
Qed.

End ProviderFacts.

(** X12 on two settings: the key of the second settings is not picked up
    until the instance is deleted. *)
Lemma provider_keeps_one_instance_witness :
  safe_funder_private_key
    (fst (SafeCreationServiceProvider.__new__ Scenario.Node
            Scenario.scripted_safe_service (mkGasStation (Ok (GasPrices.mk 1 2)))
            Fixtures.settings_b
            (snd (SafeCreationServiceProvider.__new__ Scenario.Node
                    Scenario.scripted_safe_service (mkGasStation (Ok (GasPrices.mk 1 2)))
                    Fixtures.settings_a None)))) = "key-a"%string.
Proof.
  rewrite (proj1 (proj2 (proj2
             (provider_keeps_one_instance Scenario.Node
                Scenario.scripted_safe_service Scenario.scripted_safe_service
                (mkGasStation (Ok (GasPrices.mk 1 2))) (mkGasStation (Ok (GasPrices.mk 1 2)))
                Fixtures.settings_a Fixtures.settings_b None)))).
  reflexivity.
Defined.

(** ** The helpers of the test case *)

Section HelperFacts.
Variable Node : Type.
Variable Rng : Type.
Variable accepts : Db -> write -> bool.
Variable service : SafeCreationService Node.
Variable generate_valid_s : Rng -> Z * Rng.
Variable generate_salt_nonce : Rng -> Z * Rng.
Variable Account_create_address : Rng -> string * Rng.

Local Abbreviation created := (RelayTestCaseMixin.created_addresses Rng Account_create_address).
Local Abbreviation owners_or :=
  (RelayTestCaseMixin.owners_or_created Rng Account_create_address).

Lemma created_addresses_length (n : nat) (rng : Rng) :
  length (fst (created n rng)) = n.
Proof.
  revert rng. induction n as [| n IH]; intros rng; simpl; [reflexivity |].
  destruct (Account_create_address rng) as [address rng1].
  specialize (IH rng1).
  destruct (RelayTestCaseMixin.created_addresses Rng Account_create_address n rng1)
    as [rest rng2].
  simpl in *. rewrite IH. reflexivity.
Qed.

(** The owners a helper hands to the service. *)
Lemma owners_or_created_cases (owners : option (list string)) (number_owners : Z)
  (rng : Rng) :
  (forall owner rest, owners = Some (owner :: rest) ->
                      owners_or owners number_owners rng = (owner :: rest, rng)) /\
  (owners = None \/ owners = Some [] ->
   length (fst (owners_or owners number_owners rng)) = Z.to_nat number_owners).
Proof.
  split.
  - intros owner rest ->. reflexivity.
  - intros [-> | ->]; simpl; apply created_addresses_length.
Qed.



End HelperFacts.



(** ** The owners of the test wallet *)

Section OwnerFacts.
Variable lower : string -> string.

Local Abbreviation key_le :=
  (fun x y : string * string =>
     String.leb (TestSendMultisigTx.sort_key lower x)
                (TestSendMultisigTx.sort_key lower y) = true).

Lemma insert_sorted_perm (x : string * string) (l : list (string * string)) :
  Permutation (TestSendMultisigTx.insert_sorted lower x l) (x :: l).
Proof.
  induction l as [| y rest IH]; simpl; [reflexivity |].
  destruct (String.leb _ _); [reflexivity |].
  rewrite IH. apply perm_swap.
Qed.

Lemma sort_perm (l : list (string * string)) :
  Permutation (TestSendMultisigTx.sort lower l) l.
Proof.
  induction l as [| x rest IH]; simpl; [reflexivity |].
  rewrite insert_sorted_perm. constructor. exact IH.
Qed.

Lemma insert_sorted_HdRel (a x : string * string) (l : list (string * string)) :
  key_le a x -> HdRel key_le a l ->
  HdRel key_le a (TestSendMultisigTx.insert_sorted lower x l).
Proof.
  intros Hax Hal. destruct l as [| y rest]; simpl.
  - constructor. exact Hax.
  - destruct (String.leb _ _); constructor; [exact Hax |].
    inversion Hal. assumption.
Qed.

Lemma insert_sorted_Sorted (x : string * string) (l : list (string * string)) :
  Sorted key_le l -> Sorted key_le (TestSendMultisigTx.insert_sorted lower x l).
Proof.
  induction 1 as [| y rest Hrest IH Hhd]; simpl.
  - repeat constructor.
  - destruct (String.leb (TestSendMultisigTx.sort_key lower x)
                         (TestSendMultisigTx.sort_key lower y)) eqn:Hxy.
    + constructor; [constructor; assumption |]. constructor. exact Hxy.
    + constructor; [exact IH |].
      apply insert_sorted_HdRel; [| exact Hhd].
      destruct (String.leb_total (TestSendMultisigTx.sort_key lower x)
                                 (TestSendMultisigTx.sort_key lower y)) as [H | H];
        [rewrite H in Hxy; discriminate Hxy | exact H].
Qed.

Lemma sort_Sorted (l : list (string * string)) :
  Sorted key_le (TestSendMultisigTx.sort lower l).
Proof.
  induction l as [| x rest IH]; simpl; [constructor |].
  apply insert_sorted_Sorted. exact IH.
Qed.

Lemma combine_fst_snd {A B : Type} (l : list (A * B)) :
  combine (map fst l) (map snd l) = l.
Proof.
  induction l as [| [a b] rest IH]; simpl; [reflexivity |]. rewrite IH. reflexivity.
Qed.

Lemma Sorted_map_fst (l : list (string * string)) :
  Sorted key_le l ->
  Sorted (fun a b => String.leb (lower a) (lower b) = true) (map fst l).
Proof.
  induction 1 as [| y rest Hrest IH Hhd]; simpl; constructor; [exact IH |].
  destruct Hhd as [| z rest' Hyz]; simpl; constructor. exact Hyz.
Qed.

(** X15: the owners the test hands to the wallet are in ascending order of
    their lower-cased addresses; the keys are in the order of their owners,
    so that the i-th key is the key of the i-th owner; the sorted pairs are
    the pairs that were generated, none lost and none added; and the
    threshold is the number of owners. *)
Theorem owners_sorted_with_their_keys (owners_with_keys : list (string * string)) :
  let owners := TestSendMultisigTx.owners lower owners_with_keys in
  let keys := TestSendMultisigTx.keys lower owners_with_keys in
  Sorted (fun a b => String.leb (lower a) (lower b) = true) owners /\
  Permutation (combine owners keys) owners_with_keys /\
  length keys = length owners /\
  TestSendMultisigTx.threshold lower owners_with_keys = Z.of_nat (length owners) /\
  length owners = length owners_with_keys.
Proof.
  cbv zeta. unfold TestSendMultisigTx.owners, TestSendMultisigTx.keys,
    TestSendMultisigTx.threshold.
  split; [apply Sorted_map_fst, sort_Sorted |].
  split; [rewrite combine_fst_snd; apply sort_perm |].
  rewrite !length_map. split; [reflexivity | split; [reflexivity |]].
  apply Permutation_length, sort_perm.
Qed.

End OwnerFacts.

(** Two checksummed addresses: the order is that of the lower-cased
    addresses, not that of the addresses as written, and each key moves with
    its owner. *)
Example owners_sorted_ignoring_case :
  TestSendMultisigTx.owners Fixtures.lower_address
    [("0xBb01", "key-of-Bb"); ("0xaA02", "key-of-aA")]%string = ["0xaA02"; "0xBb01"]%string /\
  TestSendMultisigTx.keys Fixtures.lower_address
    [("0xBb01", "key-of-Bb"); ("0xaA02", "key-of-aA")]%string
    = ["key-of-aA"; "key-of-Bb"]%string /\
  String.leb "0xBb01" "0xaA02" = true.
Proof. repeat split. Qed.
